(** * abTestHeroBanner: a shallow embedding of the A/B-test hero banner controller

    The development follows the single source file
    [force-app/main/default/lwc/abTestHeroBanner/abTestHeroBanner.js].

    - [JS]       the fragment of JavaScript the controller relies on
                  (completions, values, truthiness, string conversion);
    - [Json]     a reference reader for JSON texts, used to instantiate
                  [JSON.parse] on concrete inputs;
    - [Platform] the browser and the hosting framework: [localStorage],
                  [Math.random], the Apex call [logAction], [console.error];
    - [Banner]   the controller itself, method by method. *)

From Stdlib Require Import ZArith QArith String Ascii List Bool Lia.
From Stdlib Require DecimalString HexadecimalString.
From stdpp Require Import gmap strings.

Local Open Scope string_scope.
Local Open Scope list_scope.

(* ================================================================== *)
(** ** JavaScript fragment *)
(* ================================================================== *)

Module JS.

(** Exceptions the platform can raise into the controller. *)
Inductive error : Type :=
| SyntaxError
| TypeError
| SecurityError
| QuotaExceededError
| HostError (msg : string).

(** The outcome of evaluating a piece of code: a value, or a throw. *)
Inductive completion (A : Type) : Type :=
| Normal (a : A)
| Throw (e : error).
Arguments Normal {A} a.
Arguments Throw {A} e.

(** Values that reach [extractContentKey]: primitives, arrays and
    objects.  An object is a list of named properties; reading a
    property runs its getter, which yields a value or throws.  Numbers
    are kept to the integers. *)
#[local] Unset Elimination Schemes.
Inductive value : Type :=
| VUndefined
| VNull
| VBool (b : bool)
| VNum (n : Z)
| VStr (s : string)
| VArr (xs : list value)
| VObj (props : list (string * completion value)).

#[local] Set Elimination Schemes.

(** [ToBoolean] of a string: only the empty string is falsy. *)
Definition truthy_string (s : string) : bool := negb (String.eqb s "").

(** [ToBoolean]. *)
Definition truthy (v : value) : bool :=
  match v with
  | VUndefined | VNull => false
  | VBool b => b
  | VNum n => negb (Z.eqb n 0)
  | VStr s => truthy_string s
  | VArr _ | VObj _ => true
  end.

(** [typeof v === 'string']. *)
Definition is_string (v : value) : bool :=
  match v with VStr _ => true | _ => false end.

(** A string-or-absent slot (an unset field, or the [null] that
    [getItem] returns for a missing key). *)
Definition truthy_str (o : option string) : bool :=
  match o with
  | Some s => truthy_string s
  | None => false
  end.

(** [ToString] of a string-or-undefined slot, as string concatenation
    and template literals apply it. *)
Definition str_of_slot (o : option string) : string :=
  match o with
  | Some s => s
  | None => "undefined"
  end.

(** [Number.prototype.toString] in radix 10 and 16, on integers. *)
Definition number_toString (n : Z) : string :=
  DecimalString.NilZero.string_of_int (Z.to_int n).

Definition number_toString16 (n : Z) : string :=
  HexadecimalString.NilZero.string_of_int (Z.to_hex_int n).

(** [x | 0] on a rational: truncate towards zero, then wrap to a signed
    32-bit integer ([ToInt32]). *)
Definition to_int32 (q : Q) : Z :=
  let t := Z.quot (Qnum q) (Zpos (Qden q)) in
  ((t + 2 ^ 31) mod 2 ^ 32 - 2 ^ 31)%Z.

(** [Array.prototype.join(",")] over already converted elements. *)
Fixpoint join_comma (parts : list string) : string :=
  match parts with
  | [] => ""
  | [p] => p
  | p :: rest => p +:+ "," +:+ join_comma rest
  end.

(** [ToString] of a value.  Inside an array [null] and [undefined]
    print as the empty string; a plain object prints as
    ["[object Object]"]. *)
Fixpoint toString (v : value) : string :=
  match v with
  | VUndefined => "undefined"
  | VNull => "null"
  | VBool true => "true"
  | VBool false => "false"
  | VNum n => number_toString n
  | VStr s => s
  | VArr xs =>
      join_comma
        (List.map (fun x => match x with
                            | VUndefined | VNull => ""
                            | _ => toString x
                            end) xs)
  | VObj _ => "[object Object]"
  end.

(** Reading the property [name] of [v].  [null] and [undefined] have no
    properties (TypeError); primitives and arrays have none of the
    names the controller reads. *)
Fixpoint own_property (props : list (string * completion value))
         (name : string) : completion value :=
  match props with
  | [] => Normal VUndefined
  | (k, g) :: rest =>
      if String.eqb k name then g else own_property rest name
  end.

Definition get_property (v : value) (name : string) : completion value :=
  match v with
  | VUndefined | VNull => Throw TypeError
  | VObj props => own_property props name
  | _ => Normal VUndefined
  end.

(** [String.prototype.startsWith]. *)
Definition startsWith (s p : string) : bool := String.prefix p s.

End JS.

Import JS.

(* ================================================================== *)
(** ** A reference reader for JSON texts *)
(* ================================================================== *)

(** [JSON.parse] belongs to the platform; the controller is verified
    against any implementation of it.  This reader covers the JSON
    grammar over the value model above (objects, arrays, strings with the
    single-character escapes, the three literals, integer numbers) and
    stands in for [JSON.parse] where a concrete text has to be read.
    Numbers with a fraction or an exponent and [\u] escapes lie outside
    the value model and are not read. *)
Module Json.

Local Open Scope char_scope.

(** The double quote, character 34. *)
Definition dquote : ascii := ascii_of_nat 34.

Definition is_ws (c : ascii) : bool :=
  Ascii.eqb c " " || Ascii.eqb c "009" || Ascii.eqb c "010" || Ascii.eqb c "013".

Fixpoint skip_ws (cs : list ascii) : list ascii :=
  match cs with
  | c :: rest => if is_ws c then skip_ws rest else cs
  | [] => []
  end.

Definition digit_of (c : ascii) : option Z :=
  let n := Z.of_nat (nat_of_ascii c) in
  if (48 <=? n)%Z && (n <=? 57)%Z then Some (n - 48)%Z else None.

Fixpoint read_digits (cs : list ascii) (acc : Z) : Z * list ascii :=
  match cs with
  | c :: rest =>
      match digit_of c with
      | Some d => read_digits rest (10 * acc + d)%Z
      | None => (acc, cs)
      end
  | [] => (acc, [])
  end.

(** [int] of the JSON grammar: a lone zero, or a digit 1-9 followed by
    digits. *)
Definition read_nat (cs : list ascii) : option (Z * list ascii) :=
  match cs with
  | c :: rest =>
      match digit_of c with
      | Some 0%Z => Some (0%Z, rest)
      | Some d => Some (read_digits rest d)
      | None => None
      end
  | [] => None
  end.

Definition number_ends (cs : list ascii) : bool :=
  match cs with
  | c :: _ => negb (Ascii.eqb c "." || Ascii.eqb c "e" || Ascii.eqb c "E"
                    || match digit_of c with Some _ => true | None => false end)
  | [] => true
  end.

Definition read_number (cs : list ascii) : option (Z * list ascii) :=
  let '(neg, body) := match cs with
                      | "-" :: rest => (true, rest)
                      | _ => (false, cs)
                      end in
  match read_nat body with
  | Some (n, rest) =>
      if number_ends rest then Some (if neg then (- n)%Z else n, rest) else None
  | None => None
  end.

Definition unescape (c : ascii) : option ascii :=
  if Ascii.eqb c dquote then Some dquote
  else if Ascii.eqb c "\" then Some "\"
  else if Ascii.eqb c "/" then Some "/"
  else if Ascii.eqb c "b" then Some "008"
  else if Ascii.eqb c "f" then Some "012"
  else if Ascii.eqb c "n" then Some "010"
  else if Ascii.eqb c "r" then Some "013"
  else if Ascii.eqb c "t" then Some "009"
  else None.

(** The characters after an opening quote, up to the closing one. *)
Fixpoint read_string (cs : list ascii) : option (string * list ascii) :=
  match cs with
  | [] => None
  | c :: rest =>
      if Ascii.eqb c dquote then Some (EmptyString, rest)
      else if Ascii.eqb c "\" then
        match rest with
        | e :: rest' =>
            match unescape e, read_string rest' with
            | Some d, Some (s, tl) => Some (String d s, tl)
            | _, _ => None
            end
        | [] => None
        end
      else if (nat_of_ascii c <? 32)%nat then None
      else match read_string rest with
           | Some (s, tl) => Some (String c s, tl)
           | None => None
           end
  end.

(** A later member replaces an earlier one of the same name. *)
Definition set_member (k : string) (v : value)
           (ms : list (string * completion value)) :=
  List.filter (fun m => negb (String.eqb (fst m) k)) ms ++ [(k, Normal v)].

Fixpoint read_value (fuel : nat) (cs : list ascii) : option (value * list ascii) :=
  match fuel with
  | O => None
  | S fuel' =>
      match skip_ws cs with
      | "n" :: "u" :: "l" :: "l" :: rest => Some (VNull, rest)
      | "t" :: "r" :: "u" :: "e" :: rest => Some (VBool true, rest)
      | "f" :: "a" :: "l" :: "s" :: "e" :: rest => Some (VBool false, rest)
      | "034" :: rest =>
          match read_string rest with
          | Some (s, tl) => Some (VStr s, tl)
          | None => None
          end
      | "[" :: rest =>
          match skip_ws rest with
          | "]" :: tl => Some (VArr [], tl)
          | _ => read_elements fuel' rest []
          end
      | "{" :: rest =>
          match skip_ws rest with
          | "}" :: tl => Some (VObj [], tl)
          | _ => read_members fuel' rest []
          end
      | other =>
          match read_number other with
          | Some (n, tl) => Some (VNum n, tl)
          | None => None
          end
      end
  end
with read_elements (fuel : nat) (cs : list ascii) (acc : list value)
     : option (value * list ascii) :=
  match fuel with
  | O => None
  | S fuel' =>
      match read_value fuel' cs with
      | Some (v, rest) =>
          match skip_ws rest with
          | "," :: tl => read_elements fuel' tl (acc ++ [v])
          | "]" :: tl => Some (VArr (acc ++ [v]), tl)
          | _ => None
          end
      | None => None
      end
  end
with read_members (fuel : nat) (cs : list ascii)
                  (acc : list (string * completion value))
     : option (value * list ascii) :=
  match fuel with
  | O => None
  | S fuel' =>
      match skip_ws cs with
      | "034" :: rest =>
          match read_string rest with
          | Some (k, rest1) =>
              match skip_ws rest1 with
              | ":" :: rest2 =>
                  match read_value fuel' rest2 with
                  | Some (v, rest3) =>
                      match skip_ws rest3 with
                      | "," :: tl => read_members fuel' tl (set_member k v acc)
                      | "}" :: tl => Some (VObj (set_member k v acc), tl)
                      | _ => None
                      end
                  | None => None
                  end
              | _ => None
              end
          | None => None
          end
      | _ => None
      end
  end.

(** [s] between double quotes, and the text [JSON.stringify] prints
    for an object with one string-valued member. *)
Definition quoted (s : string) : string :=
  String dquote (s +:+ String dquote EmptyString).

Definition stringify_member (k v : string) : string :=
  ("{" +:+ quoted k +:+ ":" +:+ quoted v +:+ "}")%string.

(** A whole text: one value, then nothing but white space. *)
Definition parse (text : string) : completion value :=
  let cs := list_ascii_of_string text in
  match read_value (S (List.length cs)) cs with
  | Some (v, rest) =>
      match skip_ws rest with
      | [] => Normal v
      | _ => Throw SyntaxError
      end
  | None => Throw SyntaxError
  end.

End Json.

(* ================================================================== *)
(** ** The controller's state and its surroundings *)
(* ================================================================== *)

(** The argument object handed to the Apex method [logAction]. *)
Record Payload : Type := mkPayload {
  p_testId : option string;
  p_variant : option string;
  p_actionType : string;
  p_visitorId : option string }.

(** A dispatched call is pending until the server answers. *)
Inductive settlement : Type := Pending | Fulfilled | Rejected.

(** The browser as the controller sees it.  [storage_accessible] and
    [storage_full] say whether touching [localStorage] raises
    (SecurityError when storage is disabled, QuotaExceededError when a
    write does not fit).  [random_next] counts the draws of
    [Math.random] made so far, [apex_calls] lists the calls of
    [logAction] in dispatch order, [console_errors] the lines written by
    [console.error]. *)
Record Browser : Type := mkBrowser {
  localStorage : gmap string string;
  storage_accessible : bool;
  storage_full : bool;
  random_next : nat;
  apex_calls : list (Payload * settlement);
  console_errors : list string }.

(** The component instance: public [@api] properties, then the two
    internal fields. *)
Record Component : Type := mkComponent {
  testId : option string;
  imageHeight : option Z;
  _previewMode : string;
  variantA_ImageContent : value;
  variantA_ImagePosition : option string;
  variantA_Title : option string;
  variantA_Description : option string;
  variantA_ButtonLabel : option string;
  variantA_ButtonUrl : option string;
  variantB_ImageContent : value;
  variantB_ImagePosition : option string;
  variantB_Title : option string;
  variantB_Description : option string;
  variantB_ButtonLabel : option string;
  variantB_ButtonUrl : option string;
  assignedVariant : option string;
  visitorId : option string }.

Record State : Type := mkState { this : Component; env : Browser }.

Definition with_localStorage (m : gmap string string) (b : Browser) : Browser :=
  mkBrowser m (storage_accessible b) (storage_full b) (random_next b)
            (apex_calls b) (console_errors b).

Definition with_random_next (n : nat) (b : Browser) : Browser :=
  mkBrowser (localStorage b) (storage_accessible b) (storage_full b) n
            (apex_calls b) (console_errors b).

Definition with_apex_calls (cs : list (Payload * settlement)) (b : Browser) : Browser :=
  mkBrowser (localStorage b) (storage_accessible b) (storage_full b)
            (random_next b) cs (console_errors b).

Definition with_console_errors (ls : list string) (b : Browser) : Browser :=
  mkBrowser (localStorage b) (storage_accessible b) (storage_full b)
            (random_next b) (apex_calls b) ls.

Definition with_previewMode (v : string) (c : Component) : Component :=
  mkComponent (testId c) (imageHeight c) v
    (variantA_ImageContent c) (variantA_ImagePosition c) (variantA_Title c)
    (variantA_Description c) (variantA_ButtonLabel c) (variantA_ButtonUrl c)
    (variantB_ImageContent c) (variantB_ImagePosition c) (variantB_Title c)
    (variantB_Description c) (variantB_ButtonLabel c) (variantB_ButtonUrl c)
    (assignedVariant c) (visitorId c).

Definition with_assignedVariant (v : option string) (c : Component) : Component :=
  mkComponent (testId c) (imageHeight c) (_previewMode c)
    (variantA_ImageContent c) (variantA_ImagePosition c) (variantA_Title c)
    (variantA_Description c) (variantA_ButtonLabel c) (variantA_ButtonUrl c)
    (variantB_ImageContent c) (variantB_ImagePosition c) (variantB_Title c)
    (variantB_Description c) (variantB_ButtonLabel c) (variantB_ButtonUrl c)
    v (visitorId c).

Definition with_visitorId (v : option string) (c : Component) : Component :=
  mkComponent (testId c) (imageHeight c) (_previewMode c)
    (variantA_ImageContent c) (variantA_ImagePosition c) (variantA_Title c)
    (variantA_Description c) (variantA_ButtonLabel c) (variantA_ButtonUrl c)
    (variantB_ImageContent c) (variantB_ImagePosition c) (variantB_Title c)
    (variantB_Description c) (variantB_ButtonLabel c) (variantB_ButtonUrl c)
    (assignedVariant c) v.

(** *** Code that reads and writes the state, and may throw *)

Definition M (A : Type) : Type := State -> completion A * State.

Definition ret {A} (a : A) : M A := fun s => (Normal a, s).

Definition bind {A B} (c : M A) (k : A -> M B) : M B :=
  fun s =>
    match c s with
    | (Normal a, s') => k a s'
    | (Throw e, s') => (Throw e, s')
    end.

Notation "x <- c ;; k" := (bind c (fun x => k))
  (at level 100, c at next level, right associativity).
Notation "c ;; k" := (bind c (fun _ => k))
  (at level 100, right associativity).

Definition read {A} (f : Component -> A) : M A := fun s => (Normal (f (this s)), s).

Definition assign (f : Component -> Component) : M unit :=
  fun s => (Normal tt, mkState (f (this s)) (env s)).

Module Platform.
Section Platform.

(** The values successive calls of [Math.random()] return, each in
    the unit interval [0, 1). *)
Variable rnd : nat -> Q.

(** [localStorage.getItem(k)]: [None] is JavaScript's [null]. *)
Definition getItem (k : string) : M (option string) :=
  fun s =>
    if storage_accessible (env s)
    then (Normal (localStorage (env s) !! k), s)
    else (Throw SecurityError, s).

(** [localStorage.setItem(k, v)]. *)
Definition setItem (k v : string) : M unit :=
  fun s =>
    if negb (storage_accessible (env s)) then (Throw SecurityError, s)
    else if storage_full (env s) then (Throw QuotaExceededError, s)
    else (Normal tt,
          mkState (this s)
                  (with_localStorage (<[k := v]> (localStorage (env s))) (env s))).

(** [Math.random()]. *)
Definition Math_random : M Q :=
  fun s =>
    (Normal (rnd (random_next (env s))),
     mkState (this s) (with_random_next (S (random_next (env s))) (env s))).

(** [logAction(payload).catch(handler)]: the call leaves for the server
    and stays pending; the one handler the controller ever attaches is
    run by [settle] below. *)
Definition logAction_catch (p : Payload) : M unit :=
  fun s =>
    (Normal tt,
     mkState (this s)
             (with_apex_calls (apex_calls (env s) ++ [(p, Pending)]) (env s))).

(** [console.error('[AB Test] Logging failed', error)]. *)
Definition console_error (msg : string) : M unit :=
  fun s =>
    (Normal tt,
     mkState (this s)
             (with_console_errors (console_errors (env s) ++ [msg]) (env s))).

End Platform.
End Platform.

(* ================================================================== *)
(** ** The controller *)
(* ================================================================== *)

Definition STORAGE_KEY_ASSIGNMENT : string := "AB_TEST_ASSIGNMENT_".
Definition STORAGE_KEY_LOGGED : string := "AB_LOGGED_".
Definition STORAGE_KEY_VISITOR : string := "DXFORCE_VISITOR_ID".

(** What the getter [currentData] hands to the template.  [None] in
    [imageUrl] is [null]; [None] in a text field is [undefined]. *)
Record DisplayData : Type := mkDisplayData {
  imageUrl : option string;
  altText : option string;
  title : option string;
  description : option string;
  buttonLabel : option string;
  buttonUrl : string;
  imageStyle : string }.

Module Banner.
Section Banner.

Import Platform.

(** [Math.random]'s future draws, the imported community [basePath],
    and the platform's [JSON.parse] (a value, or a SyntaxError). *)
Variable rnd : nat -> Q.
Variable basePath : string.
Variable JSON_parse : string -> completion value.

(** *** Visitor identity *)

Definition uuid_template : string := "xxxxxxxx-xxxx-4xxx-yxxx-xxxxxxxxxxxx".

(** The callback of [generateUUID]: one draw per placeholder. *)
Definition uuid_digit (c : ascii) : M string :=
  x <- Math_random rnd;;
  let r := to_int32 (x * inject_Z 16) in
  let v := if Ascii.eqb c "x" then r else Z.lor (Z.land r 3) 8 in
  ret (number_toString16 v).

(** [String.prototype.replace(/[xy]/g, f)]: every [x] or [y], left to
    right, is replaced by what the callback returns. *)
Fixpoint replace_xy (f : ascii -> M string) (s : string) : M string :=
  match s with
  | EmptyString => ret EmptyString
  | String c rest =>
      if Ascii.eqb c "x" || Ascii.eqb c "y"
      then d <- f c;; t <- replace_xy f rest;; ret (d +:+ t)
      else t <- replace_xy f rest;; ret (String c t)
  end.

Definition generateUUID : M string := replace_xy uuid_digit uuid_template.

Definition initializeVisitorId : M unit :=
  vid <- getItem STORAGE_KEY_VISITOR;;
  if negb (truthy_str vid)
  then
    fresh <- generateUUID;;
    setItem STORAGE_KEY_VISITOR fresh;;
    assign (with_visitorId (Some fresh))
  else assign (with_visitorId vid).

(** *** Assignment *)

Definition initializeAssignment : M unit :=
  mode <- read _previewMode;;
  if String.eqb mode "Force A" then assign (with_assignedVariant (Some "A"))
  else if String.eqb mode "Force B" then assign (with_assignedVariant (Some "B"))
  else
    tid <- read testId;;
    if negb (truthy_str tid) then assign (with_assignedVariant (Some "A"))
    else
      let key := STORAGE_KEY_ASSIGNMENT +:+ str_of_slot tid in
      storedAssignment <- getItem key;;
      if truthy_str storedAssignment
      then assign (with_assignedVariant storedAssignment)
      else
        r <- Math_random rnd;;
        assign (with_assignedVariant
                  (Some (if Qlt_le_dec r (1 # 2) then "A" else "B")));;
        drawn <- read assignedVariant;;
        setItem key (str_of_slot drawn).

(** The setter of the [@api] property [previewMode]. *)
Definition set_previewMode (v : string) : M unit :=
  assign (with_previewMode v);;
  initializeAssignment.

(** *** Metrics *)

Definition tryLogMetric (actionType : string) : M unit :=
  tid <- read testId;;
  let logKey := STORAGE_KEY_LOGGED +:+ str_of_slot tid +:+ "_" +:+ actionType in
  hasLogged <- getItem logKey;;
  if negb (truthy_str hasLogged)
  then
    variant <- read assignedVariant;;
    vid <- read visitorId;;
    logAction_catch (mkPayload tid variant actionType vid);;
    setItem logKey "true"
  else ret tt.

(** The guard shared by [renderedCallback] and [handleButtonClick]. *)
Definition reporting_enabled (c : Component) : bool :=
  truthy_str (assignedVariant c) && truthy_str (testId c)
  && String.eqb (_previewMode c) "Auto".

Definition connectedCallback : M unit :=
  initializeVisitorId;;
  initializeAssignment.

Definition renderedCallback : M unit :=
  ok <- read reporting_enabled;;
  if ok then tryLogMetric "View" else ret tt.

Definition handleButtonClick : M unit :=
  ok <- read reporting_enabled;;
  if ok then tryLogMetric "Click" else ret tt.

(** The server's answer to the [i]-th dispatched call arrives.  A
    rejection runs the [catch] handler, which only writes to the
    console; a call settles once. *)
Definition settle (i : nat) (ok : bool) : M unit :=
  fun s =>
    match apex_calls (env s) !! i with
    | Some (p, Pending) =>
        let s' :=
          mkState (this s)
            (with_apex_calls
               (<[i := (p, if ok then Fulfilled else Rejected)]> (apex_calls (env s)))
               (env s)) in
        if ok then (Normal tt, s')
        else console_error "[AB Test] Logging failed" s'
    | _ => (Normal tt, s)
    end.

(** *** Content and links *)

Definition extractContentKey (contentRef : value) : completion value :=
  if negb (truthy contentRef) then Normal VNull
  else
    let attempt :=
      match (match contentRef with
             | VStr s => JSON_parse s
             | _ => Normal contentRef
             end) with
      | Throw e => Throw e
      | Normal ref =>
          match get_property ref "contentKey" with
          | Throw e => Throw e
          | Normal k =>
              if truthy k then Normal k
              else match get_property ref "id" with
                   | Throw e => Throw e
                   | Normal i => if truthy i then Normal i else Normal VNull
                   end
          end
      end in
    match attempt with
    | Normal v => Normal v
    | Throw _ => if is_string contentRef then Normal contentRef else Normal VNull
    end.

Definition constructCmsUrl (contentKey : value) : option string :=
  if negb (truthy contentKey) then None
  else
    let sitePrefix :=
      if truthy_string basePath && negb (String.eqb basePath "")
      then basePath else "" in
    Some (sitePrefix +:+ "/sfsites/c/cms/delivery/media/" +:+ toString contentKey).

(** [/^(http|https|mailto|tel):/]. *)
Definition absolute_schemes : list string := ["http"; "https"; "mailto"; "tel"].

Definition matches_scheme (url : string) : bool :=
  existsb (fun scheme => startsWith url (scheme +:+ ":")) absolute_schemes.

Definition resolveUrl (url : option string) : string :=
  match url with
  | None => "#"
  | Some u =>
      if negb (truthy_str (Some u)) then "#"
      else if matches_scheme u then u
      else
        let path := if startsWith u "/" then u else "/" +:+ u in
        (if truthy_string basePath then basePath else "") +:+ path
  end.

Definition contentKeyA (c : Component) : completion value :=
  extractContentKey (variantA_ImageContent c).
Definition contentKeyB (c : Component) : completion value :=
  extractContentKey (variantB_ImageContent c).

Definition or_default (o : option string) (d : string) : string :=
  if truthy_str o then str_of_slot o else d.

Definition currentData (c : Component) : completion DisplayData :=
  let isA := match assignedVariant c with
             | Some v => String.eqb v "A"
             | None => false
             end in
  match (if isA then contentKeyA c else contentKeyB c) with
  | Throw e => Throw e
  | Normal key =>
      let title := if isA then variantA_Title c else variantB_Title c in
      let desc := if isA then variantA_Description c else variantB_Description c in
      let btnLabel := if isA then variantA_ButtonLabel c else variantB_ButtonLabel c in
      let btnUrl := if isA then variantA_ButtonUrl c else variantB_ButtonUrl c in
      let position :=
        if isA then or_default (variantA_ImagePosition c) "center"
        else or_default (variantB_ImagePosition c) "center" in
      let height :=
        match imageHeight c with
        | Some h => if Z.eqb h 0 then 400%Z else h
        | None => 400%Z
        end in
      Normal
        {| imageUrl := constructCmsUrl key;
           altText := title;
           title := title;
           description := desc;
           buttonLabel := btnLabel;
           buttonUrl := resolveUrl btnUrl;
           imageStyle :=
             "width: 100%; height: " +:+ number_toString height
             +:+ "px; object-fit: cover; object-position: " +:+ position
             +:+ "; border-radius: 4px;" |}
  end.

(** *** The framework driving the component *)

Inductive event : Type :=
| Connected
| Rendered
| Click
| SetPreviewMode (v : string)
| Settled (i : nat) (ok : bool).

Definition handler (e : event) : M unit :=
  match e with
  | Connected => connectedCallback
  | Rendered => renderedCallback
  | Click => handleButtonClick
  | SetPreviewMode v => set_previewMode v
  | Settled i ok => settle i ok
  end.

(** An exception escaping a handler is the framework's to report; the
    state the handler left behind stays. *)
Definition step (s : State) (e : event) : State := snd (handler e s).

Definition run (es : list event) (s : State) : State := fold_left step es s.

End Banner.
End Banner.

Import Platform Banner.

(* ================================================================== *)
(** ** Vocabulary of the statements *)
(* ================================================================== *)

(** *** Assignment *)

(** The two modes that bypass storage. *)
Definition forced (mode : string) : bool :=
  String.eqb mode "Force A" || String.eqb mode "Force B".

(** The variant a draw selects. *)
Definition drawn_variant (r : Q) : string :=
  if Qlt_le_dec r (1 # 2) then "A" else "B".

Definition assignment_key (tid : option string) : string :=
  STORAGE_KEY_ASSIGNMENT +:+ str_of_slot tid.

(** *** Metrics *)

Definition logged_key (tid : option string) (actionType : string) : string :=
  STORAGE_KEY_LOGGED +:+ str_of_slot tid +:+ "_" +:+ actionType.

(** The payloads dispatched so far, oldest first. *)
Definition dispatched (s : State) : list Payload := List.map fst (apex_calls (env s)).

(** The dispatched calls that report action [a] for test [tid]. *)
Definition is_report (tid : option string) (a : string) (p : Payload) : bool :=
  bool_decide (p_testId p = tid) && String.eqb (p_actionType p) a.

Definition reports (tid : option string) (a : string) (s : State) : list Payload :=
  List.filter (is_report tid a) (dispatched s).

(** *** What one handler may change *)

(** The configuration and the health of storage are not the handlers' to
    change. *)
Definition same_setting (s s' : State) : Prop :=
  testId (this s') = testId (this s)
  /\ storage_accessible (env s') = storage_accessible (env s)
  /\ storage_full (env s') = storage_full (env s).

(** A key keeps its entry, or it is one of the controller's three kinds
    of key; assignment and flag entries are only written over a missing
    (or empty) entry, with the values the controller uses. *)
Definition key_effect (s s' : State) (k : string) : Prop :=
  localStorage (env s') !! k = localStorage (env s) !! k
  \/ k = STORAGE_KEY_VISITOR
  \/ (k = assignment_key (testId (this s))
      /\ truthy_str (localStorage (env s) !! k) = false
      /\ (localStorage (env s') !! k = Some "A"
          \/ localStorage (env s') !! k = Some "B"))
  \/ (exists a, k = logged_key (testId (this s)) a
      /\ truthy_str (localStorage (env s) !! k) = false
      /\ localStorage (env s') !! k = Some "true").

(** Nothing is dispatched, or exactly one call is, for an action whose
    flag was missing; unless storage is full the flag is set in the same
    step. *)
Definition call_effect (s s' : State) : Prop :=
  dispatched s' = dispatched s
  \/ (exists a,
        dispatched s'
        = dispatched s
            ++ [mkPayload (testId (this s)) (assignedVariant (this s)) a
                          (visitorId (this s))]
        /\ truthy_str (localStorage (env s) !! logged_key (testId (this s)) a) = false
        /\ (storage_full (env s) = false ->
            localStorage (env s') !! logged_key (testId (this s)) a = Some "true")).

Record effect (s s' : State) : Prop := mkEffect {
  eff_setting : same_setting s s';
  eff_keys : forall k, key_effect s s' k;
  eff_calls : call_effect s s' }.

(** *** Visitor identity *)

(** [generateUUID] as a function of the draws: the hexadecimal digit the
    callback computes from draw number [i], the template filled from draw
    [i] on, and the number of draws a template takes. *)
Definition digit_at (rnd : nat -> Q) (c : ascii) (i : nat) : string :=
  let r := to_int32 (rnd i * inject_Z 16) in
  number_toString16 (if Ascii.eqb c "x" then r else Z.lor (Z.land r 3) 8).

Fixpoint fill (rnd : nat -> Q) (tpl : string) (i : nat) : string :=
  match tpl with
  | EmptyString => EmptyString
  | String c rest =>
      if Ascii.eqb c "x" || Ascii.eqb c "y"
      then digit_at rnd c i +:+ fill rnd rest (S i)
      else String c (fill rnd rest i)
  end.

Fixpoint placeholders (tpl : string) : nat :=
  match tpl with
  | EmptyString => 0
  | String c rest =>
      if Ascii.eqb c "x" || Ascii.eqb c "y"
      then S (placeholders rest) else placeholders rest
  end.

(** The textual layout of a version-4 UUID: 36 characters, hyphens at
    positions 8, 13, 18 and 23, the version digit [4] at position 14, a
    variant digit among [8 9 a b] at position 19, lower-case hexadecimal
    digits elsewhere. *)
Definition is_hex_digit (c : ascii) : bool :=
  let n := nat_of_ascii c in
  ((48 <=? n) && (n <=? 57) || (97 <=? n) && (n <=? 102))%nat.

Definition is_variant_digit (c : ascii) : bool :=
  Ascii.eqb c "8" || Ascii.eqb c "9" || Ascii.eqb c "a" || Ascii.eqb c "b".

Fixpoint uuid_v4_from (pos : nat) (s : string) : bool :=
  match s with
  | EmptyString => Nat.eqb pos 36
  | String c rest =>
      (if (Nat.eqb pos 8 || Nat.eqb pos 13 || Nat.eqb pos 18 || Nat.eqb pos 23)%bool
       then Ascii.eqb c "-"
       else if Nat.eqb pos 14 then Ascii.eqb c "4"
       else if Nat.eqb pos 19 then is_variant_digit c
       else is_hex_digit c)
      && uuid_v4_from (S pos) rest
  end.

Definition is_uuid_v4 (s : string) : bool := uuid_v4_from 0 s.

(** The character [toString(16)] prints for a value below sixteen. *)
Definition hex_char (v : Z) : ascii :=
  ascii_of_nat (Z.to_nat (if (v <? 10)%Z then 48 + v else 87 + v)%Z).

(** *** Links *)

(** What the specification asks of [resolveLinkUrl], word for word: the
    placeholder for an empty input, an absolute link unchanged, and
    otherwise the prefix followed by the input with exactly one leading
    slash. *)
Fixpoint strip_leading_slashes (s : string) : string :=
  match s with
  | String c rest => if Ascii.eqb c "/" then strip_leading_slashes rest else s
  | EmptyString => EmptyString
  end.

Definition spec_resolveLinkUrl (prefix : string) (url : option string) : string :=
  match url with
  | None => "#"
  | Some u =>
      if String.eqb u "" then "#"
      else if matches_scheme u then u
      else prefix +:+ "/" +:+ strip_leading_slashes u
  end.

(** *** Content keys *)

(** The object the fields are read from: the parsed text for a string
    reference, the reference itself otherwise. *)
Definition read_from (JSON_parse : string -> completion value)
           (ref obj : value) : Prop :=
  match ref with
  | VStr s => JSON_parse s = Normal obj
  | _ => obj = ref
  end.

(* ================================================================== *)
(** ** Concrete scenes *)
(* ================================================================== *)

(** A banner with no content configured, for test [tid] in mode [mode]. *)
Definition bare_component (tid : option string) (mode : string) : Component :=
  mkComponent tid None mode
    VUndefined None None None None None
    VUndefined None None None None None
    None None.

(** A banner with distinct content on both sides. *)
Definition two_sided (assigned : option string) : Component :=
  mkComponent (Some "promo1") None "Auto"
    (VStr "imgA") (Some "top") (Some "Title A") (Some "Text A")
    (Some "Go A") (Some "/a")
    (VStr "imgB") None (Some "Title B") (Some "Text B")
    (Some "Go B") (Some "/b")
    assigned None.

(** A browser whose storage works and holds [ls]. *)
Definition healthy_browser (ls : gmap string string) : Browser :=
  mkBrowser ls true false 0 [] [].

(** Draws that always land in the lower, respectively upper, half. *)
Definition low_draws : nat -> Q := fun _ => 1 # 4.
Definition high_draws : nat -> Q := fun _ => 3 # 4.

(** The visitor of the end-to-end scenario: test [promo1], nothing
    stored yet. *)
Definition promo1_first_visit : State :=
  mkState (bare_component (Some "promo1") "Auto") (healthy_browser ∅).

(** The same visitor with variant B already persisted. *)
Definition promo1_returning : State :=
  mkState (bare_component (Some "promo1") "Auto")
          (healthy_browser {[ "AB_TEST_ASSIGNMENT_promo1" := "B" ]}).

(** The visitor after the first page view: variant A assigned, the banner
    about to render. *)
Definition promo1_assigned : State :=
  mkState (with_assignedVariant (Some "A") (bare_component (Some "promo1") "Auto"))
          (healthy_browser {[ "AB_TEST_ASSIGNMENT_promo1" := "A" ]}).

(** ... and once the view has been reported. *)
Definition promo1_viewed : State :=
  mkState (with_assignedVariant (Some "A") (bare_component (Some "promo1") "Auto"))
          (healthy_browser
             (<[ "AB_LOGGED_promo1_View" := "true" ]>
                {[ "AB_TEST_ASSIGNMENT_promo1" := "A" ]})).

(** A visitor whose assignment entry was overwritten by something else. *)
Definition promo1_foreign_entry : State :=
  mkState (two_sided None)
          (healthy_browser {[ "AB_TEST_ASSIGNMENT_promo1" := "a" ]}).

(** A first visit with storage disabled by the browser, and one with
    storage that takes no more writes. *)
Definition blocked_first_visit : State :=
  mkState (bare_component (Some "promo1") "Auto") (mkBrowser ∅ false false 0 [] []).

Definition full_first_visit : State :=
  mkState (bare_component (Some "promo1") "Auto") (mkBrowser ∅ true true 0 [] []).

(** *** Traces and reconfiguration *)

(** The mode an event switches to, when it is a change of mode. *)
Definition mode_set_by (e : event) : option string :=
  match e with
  | SetPreviewMode v => Some v
  | _ => None
  end.

(** No event of the trace switches to a mode that satisfies [P]. *)
Definition never_sets (P : string -> bool) (es : list event) : Prop :=
  Forall (fun e => match mode_set_by e with
                   | Some v => P v = false
                   | None => True
                   end) es.

Definition is_auto (mode : string) : bool := String.eqb mode "Auto".

(** The host replacing the content of variant A, respectively B. *)
Definition with_variantA (img : value) (pos ttl desc label url : option string)
           (c : Component) : Component :=
  mkComponent (testId c) (imageHeight c) (_previewMode c)
    img pos ttl desc label url
    (variantB_ImageContent c) (variantB_ImagePosition c) (variantB_Title c)
    (variantB_Description c) (variantB_ButtonLabel c) (variantB_ButtonUrl c)
    (assignedVariant c) (visitorId c).

Definition with_variantB (img : value) (pos ttl desc label url : option string)
           (c : Component) : Component :=
  mkComponent (testId c) (imageHeight c) (_previewMode c)
    (variantA_ImageContent c) (variantA_ImagePosition c) (variantA_Title c)
    (variantA_Description c) (variantA_ButtonLabel c) (variantA_ButtonUrl c)
    img pos ttl desc label url
    (assignedVariant c) (visitorId c).

(** What a call to the logging endpoint should look like for test [tid]:
    the test's id, one of the two actions, and a variant. *)
Definition well_formed_report (tid : option string) (p : Payload) : Prop :=
  p_testId p = tid
  /\ truthy_str tid = true
  /\ (p_actionType p = "View" \/ p_actionType p = "Click")
  /\ truthy_str (p_variant p) = true.

(** Whenever the component may report, the variant it holds is the one
    stored for its test. *)
Definition assignment_in_sync (s : State) : Prop :=
  reporting_enabled (this s) = true ->
  localStorage (env s) !! assignment_key (testId (this s))
  = assignedVariant (this s).

(** Two instances that differ at most in the mode and the two internal
    fields: the configured content is the same. *)
Definition same_content (c c' : Component) : Prop :=
  with_assignedVariant None (with_visitorId None (with_previewMode EmptyString c))
  = with_assignedVariant None (with_visitorId None (with_previewMode EmptyString c')).

(** The fixed route of the CMS media delivery. *)
Definition delivery_route : string := "/sfsites/c/cms/delivery/media/".

(** The visitor with variant A assigned and a storage that takes no more
    writes. *)
Definition promo1_assigned_full : State :=
  mkState (with_assignedVariant (Some "A") (bare_component (Some "promo1") "Auto"))
          (mkBrowser {[ "AB_TEST_ASSIGNMENT_promo1" := "A" ]} true true 0 [] []).

(** A returning visitor in a storage another application also uses. *)
Definition promo1_shared_storage : State :=
  mkState (bare_component (Some "promo1") "Auto")
          (healthy_browser
             (<[ "cart" := "3 items" ]> {[ "AB_TEST_ASSIGNMENT_promo1" := "B" ]})).

(** The banner in the builder, forced to variant B, view not yet logged. *)
Definition promo1_in_builder : State :=
  mkState (with_assignedVariant (Some "B") (bare_component (Some "promo1") "Force B"))
          (healthy_browser {[ "AB_TEST_ASSIGNMENT_promo1" := "A" ]}).

(** A returning visitor whose identifier is already stored. *)
Definition promo1_known_visitor : State :=
  mkState (bare_component (Some "promo1") "Auto")
          (healthy_browser {[ "DXFORCE_VISITOR_ID" := "v-1" ]}).

(* ================================================================== *)
(** ** Groundwork *)
(* ================================================================== *)

(** *** Storage keys never collide *)

Lemma assignment_key_not_visitor t :
  STORAGE_KEY_ASSIGNMENT +:+ t <> STORAGE_KEY_VISITOR.
Proof. discriminate. Qed.

Lemma assignment_key_not_logged t t' a :
  STORAGE_KEY_ASSIGNMENT +:+ t <> STORAGE_KEY_LOGGED +:+ t' +:+ "_" +:+ a.
Proof. discriminate. Qed.

Lemma logged_key_not_visitor t a :
  STORAGE_KEY_LOGGED +:+ t +:+ "_" +:+ a <> STORAGE_KEY_VISITOR.
Proof. discriminate. Qed.

Lemma append_inj_l (p x y : string) : p +:+ x = p +:+ y -> x = y.
Proof. induction p as [|c p IH]; cbn; [auto | intros H; injection H; auto]. Qed.

Lemma truthy_str_Some (o : option string) :
  truthy_str o = true -> exists v, o = Some v /\ v <> "".
Proof.
  destruct o as [v|]; unfold truthy_str, truthy_string; [|discriminate].
  destruct (String.eqb_spec v ""); [discriminate|]. eauto.
Qed.

Lemma truthy_str_nonempty (v : string) : v <> "" -> truthy_str (Some v) = true.
Proof.
  intros H. unfold truthy_str, truthy_string.
  now rewrite (proj2 (String.eqb_neq v "") H).
Qed.

(** *** One resolution, branch by branch *)

Section Resolution.

Variable rnd : nat -> Q.

Lemma resolve_force_A s :
  _previewMode (this s) = "Force A" ->
  initializeAssignment rnd s
  = (Normal tt, mkState (with_assignedVariant (Some "A") (this s)) (env s)).
Proof.
  intros H. unfold initializeAssignment, bind, read, assign. now rewrite H.
Qed.

Lemma resolve_force_B s :
  _previewMode (this s) = "Force B" ->
  initializeAssignment rnd s
  = (Normal tt, mkState (with_assignedVariant (Some "B") (this s)) (env s)).
Proof.
  intros H. unfold initializeAssignment, bind, read, assign. now rewrite H.
Qed.

Lemma resolve_no_test s :
  forced (_previewMode (this s)) = false ->
  truthy_str (testId (this s)) = false ->
  initializeAssignment rnd s
  = (Normal tt, mkState (with_assignedVariant (Some "A") (this s)) (env s)).
Proof.
  unfold forced. intros Hm Ht. apply orb_false_elim in Hm as [HA HB].
  unfold initializeAssignment, bind, read, assign. cbn.
  now rewrite HA, HB, Ht.
Qed.

Lemma resolve_stored s t v :
  forced (_previewMode (this s)) = false ->
  testId (this s) = Some t -> t <> "" ->
  storage_accessible (env s) = true ->
  localStorage (env s) !! (STORAGE_KEY_ASSIGNMENT +:+ t) = Some v -> v <> "" ->
  initializeAssignment rnd s
  = (Normal tt, mkState (with_assignedVariant (Some v) (this s)) (env s)).
Proof.
  unfold forced. intros Hm Ht Hne Hacc Hv Hvne.
  apply orb_false_elim in Hm as [HA HB].
  unfold initializeAssignment, bind, read, assign, getItem. cbn.
  rewrite HA, HB, Ht, (truthy_str_nonempty t Hne). cbn.
  rewrite Hacc, Hv, (truthy_str_nonempty v Hvne). reflexivity.
Qed.

Lemma drawn_variant_spec r :
  (drawn_variant r = "A" \/ drawn_variant r = "B")
  /\ ((r < 1 # 2)%Q -> drawn_variant r = "A")
  /\ ((1 # 2 <= r)%Q -> drawn_variant r = "B").
Proof.
  unfold drawn_variant. destruct (Qlt_le_dec r (1 # 2)) as [Hlt|Hge].
  - split; [now left|]. split; [reflexivity|].
    intros H. exfalso. apply (Qlt_irrefl r).
    eapply Qlt_le_trans; [exact Hlt | exact H].
  - split; [now right|]. split; [|reflexivity].
    intros H. exfalso. apply (Qlt_irrefl r).
    eapply Qlt_le_trans; [exact H | exact Hge].
Qed.

Lemma resolve_fresh s t :
  forced (_previewMode (this s)) = false ->
  testId (this s) = Some t -> t <> "" ->
  storage_accessible (env s) = true ->
  storage_full (env s) = false ->
  truthy_str (localStorage (env s) !! (STORAGE_KEY_ASSIGNMENT +:+ t)) = false ->
  let v := drawn_variant (rnd (random_next (env s))) in
  initializeAssignment rnd s
  = (Normal tt,
     mkState (with_assignedVariant (Some v) (this s))
       (with_localStorage
          (<[STORAGE_KEY_ASSIGNMENT +:+ t := v]> (localStorage (env s)))
          (with_random_next (S (random_next (env s))) (env s)))).
Proof.
  unfold forced. intros Hm Ht Hne Hacc Hfull Hv.
  apply orb_false_elim in Hm as [HA HB].
  unfold initializeAssignment, bind, read, assign, getItem, setItem, Math_random.
  cbn. rewrite HA, HB, Ht, (truthy_str_nonempty t Hne). cbn.
  rewrite Hacc, Hv. cbn. rewrite Hacc, Hfull. reflexivity.
Qed.

End Resolution.

(** *** Generating an identifier is a pure function of the draws *)

Section Visitor.

Variable rnd : nat -> Q.

Lemma replace_xy_fill tpl s :
  replace_xy (uuid_digit rnd) tpl s
  = (Normal (fill rnd tpl (random_next (env s))),
     mkState (this s)
       (with_random_next (placeholders tpl + random_next (env s)) (env s))).
Proof.
  revert s. induction tpl as [|c rest IH]; intros [c0 b].
  - destruct b; reflexivity.
  - cbn [replace_xy fill placeholders].
    destruct (Ascii.eqb c "x" || Ascii.eqb c "y").
    + unfold bind at 1. unfold uuid_digit at 1, bind at 1, Math_random, ret at 1.
      cbn [this env]. unfold bind at 1. rewrite IH. unfold ret. cbn.
      unfold digit_at, with_random_next. cbn.
      now rewrite Nat.add_succ_r.
    + unfold bind at 1. rewrite IH. unfold ret. reflexivity.
Qed.

Lemma generateUUID_fill s :
  generateUUID rnd s
  = (Normal (fill rnd uuid_template (random_next (env s))),
     mkState (this s) (with_random_next (31 + random_next (env s)) (env s))).
Proof. unfold generateUUID. now rewrite replace_xy_fill. Qed.

End Visitor.

(** *** What one handler may change *)

Lemma effect_quiet s s' :
  same_setting s s' ->
  localStorage (env s') = localStorage (env s) ->
  dispatched s' = dispatched s ->
  effect s s'.
Proof.
  intros Hs Hl Hd. split; [exact Hs | | now left].
  intros k. left. now rewrite Hl.
Qed.

Lemma same_setting_refl s : same_setting s s.
Proof. repeat split. Qed.

#[local] Hint Resolve same_setting_refl : core.

Ltac quiet := apply effect_quiet; cbn; repeat split; auto.

(** Unfold the monadic plumbing, and nothing else. *)
Ltac mstep :=
  cbv beta iota zeta
      delta [bind read assign ret getItem setItem Math_random logAction_catch
             console_error this env fst snd negb
             storage_accessible storage_full localStorage random_next
             apex_calls console_errors with_random_next with_apex_calls
             with_localStorage with_console_errors].

Section Effects.

Variable rnd : nat -> Q.

Lemma tryLogMetric_effect a s : effect s (snd (tryLogMetric a s)).
Proof.
  destruct s as [c b].
  unfold tryLogMetric, bind, read, getItem, setItem, logAction_catch, ret. cbn.
  fold (logged_key (testId c) a).
  destruct (storage_accessible b) eqn:Hacc; cbn.
  2:{ now apply effect_quiet. }
  destruct (truthy_str (localStorage b !! logged_key (testId c) a)) eqn:Hflag; cbn.
  { now apply effect_quiet. }
  rewrite Hacc. cbn.
  destruct (storage_full b) eqn:Hfull; cbn.
  - split; [repeat split; auto | left; reflexivity |].
    right. exists a. unfold dispatched; cbn. rewrite List.map_app. cbn.
    repeat split; auto. cbn. congruence.
  - split; [repeat split; auto | |].
    + intros k. destruct (decide (k = logged_key (testId c) a)) as [->|Hne].
      * right; right; right. exists a. cbn. rewrite lookup_insert_eq. auto.
      * left. cbn. now rewrite lookup_insert_ne.
    + right. exists a. unfold dispatched; cbn. rewrite List.map_app. cbn.
      repeat split; auto. intros _. apply lookup_insert_eq.
Qed.

Lemma initializeAssignment_effect s :
  effect s (snd (initializeAssignment rnd s))
  /\ dispatched (snd (initializeAssignment rnd s)) = dispatched s.
Proof.
  destruct s as [c b]. unfold initializeAssignment. mstep.
  destruct (String.eqb (_previewMode c) "Force A");
    [split; [quiet | reflexivity] |].
  destruct (String.eqb (_previewMode c) "Force B");
    [split; [quiet | reflexivity] |].
  destruct (truthy_str (testId c)) eqn:Htid;
    [| split; [quiet | reflexivity]].
  fold (assignment_key (testId c)).
  destruct b as [ls acc full n calls errs].
  destruct acc; mstep; [| split; [quiet | reflexivity]].
  destruct (truthy_str (ls !! assignment_key (testId c))) eqn:Hst;
    [split; [quiet | reflexivity] |].
  destruct full; [split; [quiet | reflexivity] |].
  split; [| reflexivity].
  split; [repeat split; auto | | now left].
  intros k. unfold key_effect. cbn.
  destruct (decide (k = assignment_key (testId c))) as [->|Hne].
  - right; right; left. split; [reflexivity|]. split; [exact Hst|].
    rewrite lookup_insert_eq.
    destruct (Qlt_le_dec _ _); auto.
  - left. now rewrite lookup_insert_ne.
Qed.

Lemma initializeVisitorId_effect s :
  let s' := snd (initializeVisitorId rnd s) in
  same_setting s s'
  /\ dispatched s' = dispatched s
  /\ assignedVariant (this s') = assignedVariant (this s)
  /\ _previewMode (this s') = _previewMode (this s)
  /\ forall k, k <> STORAGE_KEY_VISITOR ->
               localStorage (env s') !! k = localStorage (env s) !! k.
Proof.
  destruct s as [c b].
  unfold initializeVisitorId, bind, getItem. cbn [this env].
  destruct (storage_accessible b) eqn:Hacc; cbn [snd];
    [| repeat split; auto].
  destruct (truthy_str (localStorage b !! STORAGE_KEY_VISITOR));
    cbn [negb]; [cbn; repeat split; auto |].
  rewrite generateUUID_fill. unfold setItem, assign.
  cbn [this env storage_accessible storage_full with_random_next].
  rewrite Hacc. cbn [negb].
  destruct (storage_full b) eqn:Hfull; cbn; [repeat split; auto |].
  repeat split; auto.
  intros k Hk. now rewrite lookup_insert_ne.
Qed.

Lemma settle_effect i ok s :
  let s' := snd (settle i ok s) in
  effect s s' /\ dispatched s' = dispatched s /\ this s' = this s
  /\ localStorage (env s') = localStorage (env s).
Proof.
  destruct s as [c b]. unfold settle. cbn [this env].
  destruct (apex_calls b !! i) as [[p st]|] eqn:Hi;
    [| cbn; repeat split; auto; now apply effect_quiet].
  assert (Hmap : forall st', List.map fst (<[i := (p, st')]> (apex_calls b))
                      = List.map fst (apex_calls b)).
  { intros st'. rewrite list_fmap_insert. cbn.
    apply list_insert_id. rewrite list_lookup_fmap, Hi. reflexivity. }
  destruct st; [| cbn; repeat split; auto; now apply effect_quiet ..].
  destruct ok; unfold console_error, dispatched; cbn; rewrite Hmap;
    (split; [apply effect_quiet; unfold dispatched; cbn; rewrite ?Hmap; auto;
             repeat split; auto | repeat split; auto]).
Qed.

End Effects.

Section Traces.

Variable rnd : nat -> Q.

Lemma guarded_tryLogMetric_effect a s :
  effect s (snd ((ok <- read reporting_enabled;;
                  if ok then tryLogMetric a else ret tt) s)).
Proof.
  unfold bind at 1, read at 1. cbn [this env].
  destruct (reporting_enabled (this s)).
  - apply tryLogMetric_effect.
  - now apply effect_quiet.
Qed.

Lemma step_effect s e : effect s (step rnd s e).
Proof.
  unfold step. destruct e as [| | |v|i ok]; cbn [handler].
  - (* connectedCallback *)
    unfold connectedCallback, bind.
    pose proof (initializeVisitorId_effect rnd s) as Hv. cbv zeta in Hv.
    destruct (initializeVisitorId rnd s) as [[[]|err] s1]; cbn [snd] in *.
    2:{ destruct Hv as (Hs & Hd & _ & _ & Hk).
        split; [exact Hs | | now left].
        intros k. destruct (decide (k = STORAGE_KEY_VISITOR)); [now right; left|].
        left. now apply Hk. }
    destruct Hv as ((Ht & Hacc & Hfull) & Hd & _ & _ & Hk).
    destruct (initializeAssignment_effect rnd s1) as [[Hs2 Hk2 _] Hd2].
    destruct Hs2 as (Ht2 & Hacc2 & Hfull2).
    split.
    + repeat split; congruence.
    + intros k. destruct (decide (k = STORAGE_KEY_VISITOR)); [now right; left|].
      destruct (Hk2 k) as [H|[H|[H|H]]].
      * left. rewrite H. now apply Hk.
      * contradiction.
      * right; right; left. rewrite <- Ht, <- (Hk k) by assumption. exact H.
      * right; right; right. destruct H as [a H]. exists a.
        rewrite <- Ht, <- (Hk k) by assumption. exact H.
    + left. now rewrite Hd2.
  - apply guarded_tryLogMetric_effect.
  - apply guarded_tryLogMetric_effect.
  - (* the previewMode setter *)
    unfold set_previewMode, bind at 1, assign at 1.
    set (s1 := mkState (with_previewMode v (this s)) (env s)).
    destruct (initializeAssignment_effect rnd s1) as [[Hs Hk _] Hd].
    split; [exact Hs | exact Hk | left; exact Hd].
  - apply settle_effect.
Qed.

Lemma run_setting es s : same_setting s (run rnd es s).
Proof.
  revert s. induction es as [|e es IH]; intros s; [apply same_setting_refl|].
  change (run rnd (e :: es) s) with (run rnd es (step rnd s e)).
  destruct (step_effect s e) as [(H1 & H2 & H3) _ _].
  destruct (IH (step rnd s e)) as (G1 & G2 & G3).
  repeat split; congruence.
Qed.

(** A persisted assignment outlives every handler. *)
Lemma step_keeps_assignment s e t v :
  testId (this s) = Some t -> v <> "" ->
  localStorage (env s) !! (STORAGE_KEY_ASSIGNMENT +:+ t) = Some v ->
  localStorage (env (step rnd s e)) !! (STORAGE_KEY_ASSIGNMENT +:+ t) = Some v.
Proof.
  intros Ht Hv Hs.
  destruct (step_effect s e) as [_ Hk _].
  destruct (Hk (STORAGE_KEY_ASSIGNMENT +:+ t)) as [H|[H|[H|H]]].
  - now rewrite H.
  - discriminate H.
  - destruct H as (_ & Hf & _). rewrite Hs, (truthy_str_nonempty v Hv) in Hf.
    discriminate.
  - destruct H as (a & H & _). discriminate H.
Qed.

Lemma run_keeps_assignment es s t v :
  testId (this s) = Some t -> v <> "" ->
  localStorage (env s) !! (STORAGE_KEY_ASSIGNMENT +:+ t) = Some v ->
  localStorage (env (run rnd es s)) !! (STORAGE_KEY_ASSIGNMENT +:+ t) = Some v.
Proof.
  revert s. induction es as [|e es IH]; intros s Ht Hv Hs; [exact Hs|].
  change (run rnd (e :: es) s) with (run rnd es (step rnd s e)).
  apply IH; [| exact Hv | now apply step_keeps_assignment].
  destruct (step_effect s e) as [(H1 & _) _ _]. congruence.
Qed.

End Traces.

(* ================================================================== *)
(** ** Assignment *)
(* ================================================================== *)

(** C1. Once a (non-empty) value is stored under the assignment key of the
    configured test, it stays there through every later handler of the
    component, and every later resolution in a non-forced mode returns
    exactly that value and leaves storage as it is.  Moreover, with a
    working storage, two resolutions in a row in a non-forced mode end
    with the same variant, whatever was or was not stored before. *)
Theorem C1_persisted_assignment_is_stable :
  forall (rnd : nat -> Q) (s : State) (t : string),
    testId (this s) = Some t -> t <> "" ->
    storage_accessible (env s) = true ->
    (forall v, v <> "" ->
       localStorage (env s) !! (STORAGE_KEY_ASSIGNMENT +:+ t) = Some v ->
       forall es, let s' := run rnd es s in
         localStorage (env s') !! (STORAGE_KEY_ASSIGNMENT +:+ t) = Some v
         /\ (forced (_previewMode (this s')) = false ->
             fst (initializeAssignment rnd s') = Normal tt
             /\ assignedVariant (this (snd (initializeAssignment rnd s'))) = Some v
             /\ localStorage (env (snd (initializeAssignment rnd s')))
                = localStorage (env s')))
    /\ (storage_full (env s) = false ->
        forced (_previewMode (this s)) = false ->
        let s1 := snd (initializeAssignment rnd s) in
        let s2 := snd (initializeAssignment rnd s1) in
        fst (initializeAssignment rnd s) = Normal tt
        /\ fst (initializeAssignment rnd s1) = Normal tt
        /\ (exists v, assignedVariant (this s1) = Some v /\ v <> "")
        /\ assignedVariant (this s2) = assignedVariant (this s1)).
Proof.
  intros rnd s t Ht Hne Hacc. split.
  - intros v Hv Hst es s'.
    pose proof (run_keeps_assignment rnd es s t v Ht Hv Hst) as Hst'.
    destruct (run_setting rnd es s) as (Ht' & Hacc' & _).
    fold s' in Hst', Ht', Hacc'.
    split; [exact Hst'|]. intros Hmode.
    rewrite (resolve_stored rnd s' t v); cbn; auto; congruence.
  - intros Hfull Hmode s1 s2.
    destruct (truthy_str (localStorage (env s) !! (STORAGE_KEY_ASSIGNMENT +:+ t)))
      eqn:Hst.
    + apply truthy_str_Some in Hst as (v & Hst & Hv).
      assert (E1 := resolve_stored rnd s t v Hmode Ht Hne Hacc Hst Hv).
      subst s2 s1. rewrite E1. cbn [fst snd].
      rewrite (resolve_stored rnd _ t v); cbn; eauto.
      repeat split; eauto.
    + assert (E1 := resolve_fresh rnd s t Hmode Ht Hne Hacc Hfull Hst).
      cbv zeta in E1. subst s2 s1. rewrite E1. cbn [fst snd].
      set (v := drawn_variant (rnd (random_next (env s)))).
      assert (Hv : v <> "") by (unfold v, drawn_variant; destruct (Qlt_le_dec _ _); discriminate).
      rewrite (resolve_stored rnd _ t v); cbn; eauto.
      * repeat split; eauto.
      * apply lookup_insert_eq.
Qed.

Lemma C1_witness :
  (forall es, let s' := run low_draws es promo1_returning in
     localStorage (env s') !! (STORAGE_KEY_ASSIGNMENT +:+ "promo1") = Some "B"
     /\ (forced (_previewMode (this s')) = false ->
         fst (initializeAssignment low_draws s') = Normal tt
         /\ assignedVariant (this (snd (initializeAssignment low_draws s'))) = Some "B"
         /\ localStorage (env (snd (initializeAssignment low_draws s')))
            = localStorage (env s')))
  /\ assignedVariant
       (this (snd (initializeAssignment low_draws
                     (snd (initializeAssignment low_draws promo1_first_visit)))))
     = assignedVariant (this (snd (initializeAssignment low_draws promo1_first_visit))).
Proof.
  split.
  - apply (C1_persisted_assignment_is_stable low_draws promo1_returning "promo1");
      [reflexivity | discriminate | reflexivity | discriminate | reflexivity].
  - apply (C1_persisted_assignment_is_stable low_draws promo1_first_visit "promo1");
      [reflexivity | discriminate | reflexivity | reflexivity | reflexivity].
Defined.

(** C3. In the modes [Force A] and [Force B] resolution yields the forced
    variant, whatever storage holds (a persisted assignment included, and
    whether or not storage works), and the browser is left exactly as it
    was: no key written, none removed.  The same holds when the mode is
    switched through the property setter. *)
Theorem C3_forced_mode_bypasses_storage :
  forall (rnd : nat -> Q) (s : State) (mode variant : string),
    (mode = "Force A" /\ variant = "A") \/ (mode = "Force B" /\ variant = "B") ->
    (_previewMode (this s) = mode ->
     fst (initializeAssignment rnd s) = Normal tt
     /\ assignedVariant (this (snd (initializeAssignment rnd s))) = Some variant
     /\ env (snd (initializeAssignment rnd s)) = env s)
    /\ (fst (set_previewMode rnd mode s) = Normal tt
        /\ assignedVariant (this (snd (set_previewMode rnd mode s))) = Some variant
        /\ localStorage (env (snd (set_previewMode rnd mode s))) = localStorage (env s)).
Proof.
  intros rnd s mode variant [[-> ->]|[-> ->]]; split.
  - intros H. now rewrite (resolve_force_A rnd s H).
  - unfold set_previewMode, bind at 1, assign at 1.
    now rewrite resolve_force_A.
  - intros H. now rewrite (resolve_force_B rnd s H).
  - unfold set_previewMode, bind at 1, assign at 1.
    now rewrite resolve_force_B.
Qed.

Lemma C3_witness :
  let s := mkState (bare_component (Some "promo1") "Force A")
                   (healthy_browser {[ "AB_TEST_ASSIGNMENT_promo1" := "B" ]}) in
  (fst (initializeAssignment low_draws s) = Normal tt
   /\ assignedVariant (this (snd (initializeAssignment low_draws s))) = Some "A"
   /\ env (snd (initializeAssignment low_draws s)) = env s)
  /\ localStorage (env (snd (set_previewMode low_draws "Force B" s)))
     !! "AB_TEST_ASSIGNMENT_promo1" = Some "B".
Proof.
  cbv zeta. split.
  - apply (C3_forced_mode_bypasses_storage low_draws _ "Force A" "A");
      [left; split; reflexivity | reflexivity].
  - pose proof (C3_forced_mode_bypasses_storage low_draws
                  (mkState (bare_component (Some "promo1") "Force A")
                     (healthy_browser {[ "AB_TEST_ASSIGNMENT_promo1" := "B" ]}))
                  "Force B" "B" (or_intror (conj eq_refl eq_refl))) as [_ (_ & _ & H)].
    rewrite H. reflexivity.
Defined.

(** C4. In a non-forced mode (in particular [Auto]) with a test
    configured, a working storage and nothing stored for the test, a
    resolution makes one draw, takes ["A"] when the draw is below one
    half and ["B"] otherwise, writes that value under the test's
    assignment key (changing no other key) and ends with the same value in
    [assignedVariant]; both outcomes occur. *)
Theorem C4_fresh_assignment_is_drawn_and_persisted :
  forall (s : State) (t : string),
    forced (_previewMode (this s)) = false ->
    testId (this s) = Some t -> t <> "" ->
    storage_accessible (env s) = true ->
    storage_full (env s) = false ->
    localStorage (env s) !! (STORAGE_KEY_ASSIGNMENT +:+ t) = None ->
    (forall rnd : nat -> Q,
       let r := rnd (random_next (env s)) in
       let s' := snd (initializeAssignment rnd s) in
       fst (initializeAssignment rnd s) = Normal tt
       /\ (exists v, assignedVariant (this s') = Some v
             /\ (v = "A" \/ v = "B")
             /\ ((r < 1 # 2)%Q -> v = "A")
             /\ ((1 # 2 <= r)%Q -> v = "B")
             /\ localStorage (env s')
                = <[STORAGE_KEY_ASSIGNMENT +:+ t := v]> (localStorage (env s)))
       /\ localStorage (env s') !! (STORAGE_KEY_ASSIGNMENT +:+ t)
          = assignedVariant (this s')
       /\ random_next (env s') = S (random_next (env s)))
    /\ (exists rnd, assignedVariant (this (snd (initializeAssignment rnd s))) = Some "A")
    /\ (exists rnd, assignedVariant (this (snd (initializeAssignment rnd s))) = Some "B").
Proof.
  intros s t Hmode Ht Hne Hacc Hfull Hnone.
  assert (Hst : truthy_str (localStorage (env s) !! (STORAGE_KEY_ASSIGNMENT +:+ t)) = false)
    by now rewrite Hnone.
  split; [| split].
  - intros rnd r s'.
    assert (E := resolve_fresh rnd s t Hmode Ht Hne Hacc Hfull Hst). cbv zeta in E.
    subst s'. rewrite E. cbn [fst snd this env].
    split; [reflexivity|]. split; [| split].
    + exists (drawn_variant r). cbn. fold r.
      destruct (drawn_variant_spec r) as (H1 & H2 & H3). auto.
    + cbn. apply lookup_insert_eq.
    + reflexivity.
  - exists low_draws.
    now rewrite (resolve_fresh low_draws s t Hmode Ht Hne Hacc Hfull Hst).
  - exists high_draws.
    now rewrite (resolve_fresh high_draws s t Hmode Ht Hne Hacc Hfull Hst).
Qed.

Lemma C4_witness :
  fst (initializeAssignment high_draws promo1_first_visit) = Normal tt
  /\ localStorage (env (snd (initializeAssignment high_draws promo1_first_visit)))
     !! (STORAGE_KEY_ASSIGNMENT +:+ "promo1")
     = assignedVariant (this (snd (initializeAssignment high_draws promo1_first_visit))).
Proof.
  destruct (C4_fresh_assignment_is_drawn_and_persisted promo1_first_visit "promo1")
    as [H _];
    [reflexivity | reflexivity | discriminate | reflexivity | reflexivity
    | reflexivity |].
  destruct (H high_draws) as (H1 & _ & H3 & _). split; [exact H1 | exact H3].
Defined.

(** C6. With no test configured (the property unset or empty) and a mode
    other than the two forced ones, resolution yields ["A"] and touches
    nothing in the browser: no key of storage is written. *)
Theorem C6_no_test_defaults_to_A :
  forall (rnd : nat -> Q) (s : State),
    testId (this s) = None \/ testId (this s) = Some "" ->
    _previewMode (this s) <> "Force A" ->
    _previewMode (this s) <> "Force B" ->
    fst (initializeAssignment rnd s) = Normal tt
    /\ assignedVariant (this (snd (initializeAssignment rnd s))) = Some "A"
    /\ env (snd (initializeAssignment rnd s)) = env s.
Proof.
  intros rnd s Ht HA HB.
  rewrite resolve_no_test; [now cbn | |].
  - unfold forced. apply orb_false_intro; now apply String.eqb_neq.
  - destruct Ht as [-> | ->]; reflexivity.
Qed.

Lemma C6_witness :
  let s := mkState (bare_component None "Auto")
                   (healthy_browser {[ "AB_TEST_ASSIGNMENT_promo1" := "B" ]}) in
  fst (initializeAssignment low_draws s) = Normal tt
  /\ assignedVariant (this (snd (initializeAssignment low_draws s))) = Some "A"
  /\ env (snd (initializeAssignment low_draws s)) = env s.
Proof.
  apply (C6_no_test_defaults_to_A low_draws);
    [left; reflexivity | discriminate | discriminate].
Defined.

(* ================================================================== *)
(** ** Metrics *)
(* ================================================================== *)

Section Dedup.

Variable rnd : nat -> Q.

Lemma logged_key_inj tid a a' : logged_key tid a = logged_key tid a' -> a = a'.
Proof.
  unfold logged_key. intros H.
  apply append_inj_l in H. apply append_inj_l in H. now apply append_inj_l in H.
Qed.

(** With the flag present a handler dispatches no report for that
    action, and the flag stays. *)
Lemma step_flagged s e a :
  truthy_str (localStorage (env s) !! logged_key (testId (this s)) a) = true ->
  reports (testId (this s)) a (step rnd s e) = reports (testId (this s)) a s
  /\ truthy_str (localStorage (env (step rnd s e)) !! logged_key (testId (this s)) a)
     = true.
Proof.
  intros Hflag. destruct (step_effect rnd s e) as [_ Hk Hc]. split.
  - destruct Hc as [Hc | (a' & Hc & Hfalse & _)]; unfold reports.
    + now rewrite Hc.
    + rewrite Hc, List.filter_app. cbn.
      destruct (String.eqb_spec a' a) as [->|Hne]; [congruence|].
      unfold is_report at 2. cbn.
      rewrite (proj2 (String.eqb_neq a' a) Hne), andb_false_r.
      apply List.app_nil_r.
  - destruct (Hk (logged_key (testId (this s)) a)) as [H|[H|[H|H]]].
    + now rewrite H.
    + discriminate H.
    + destruct H as (H & _). discriminate H.
    + destruct H as (a' & _ & Hfalse & _). congruence.
Qed.

Lemma run_flagged es s a :
  truthy_str (localStorage (env s) !! logged_key (testId (this s)) a) = true ->
  reports (testId (this s)) a (run rnd es s) = reports (testId (this s)) a s
  /\ truthy_str (localStorage (env (run rnd es s)) !! logged_key (testId (this s)) a)
     = true.
Proof.
  revert s. induction es as [|e es IH]; intros s Hflag; [now split|].
  change (run rnd (e :: es) s) with (run rnd es (step rnd s e)).
  destruct (step_flagged s e a Hflag) as [Hr Hf].
  destruct (step_effect rnd s e) as [(Ht & _) _ _].
  rewrite <- Ht in Hf |- *. destruct (IH _ Hf) as [Hr' Hf'].
  split; [|exact Hf']. rewrite Hr'. rewrite Ht. exact Hr.
Qed.

(** With room in storage, a handler that dispatches a report sets its
    flag in the same step. *)
Lemma step_reports s e a :
  storage_full (env s) = false ->
  reports (testId (this s)) a (step rnd s e) = reports (testId (this s)) a s
  \/ (List.length (reports (testId (this s)) a (step rnd s e))
      = S (List.length (reports (testId (this s)) a s))
      /\ truthy_str (localStorage (env (step rnd s e))
                     !! logged_key (testId (this s)) a) = true).
Proof.
  intros Hfull. destruct (step_effect rnd s e) as [_ _ Hc].
  destruct Hc as [Hc | (a' & Hc & _ & Hset)]; unfold reports.
  - left. now rewrite Hc.
  - rewrite Hc, List.filter_app. cbn.
    destruct (String.eqb_spec a' a) as [->|Hne].
    + right. unfold is_report at 2. cbn.
      rewrite bool_decide_eq_true_2 by reflexivity.
      rewrite String.eqb_refl. cbn. rewrite List.length_app. cbn.
      split; [lia|]. now rewrite (Hset Hfull).
    + left. unfold is_report at 2. cbn.
      rewrite (proj2 (String.eqb_neq a' a) Hne), andb_false_r.
      apply List.app_nil_r.
Qed.

Lemma run_reports_at_most_one es s a :
  storage_full (env s) = false ->
  List.length (reports (testId (this s)) a (run rnd es s))
  <= S (List.length (reports (testId (this s)) a s)).
Proof.
  revert s. induction es as [|e es IH]; intros s Hfull; [cbn; lia|].
  change (run rnd (e :: es) s) with (run rnd es (step rnd s e)).
  destruct (step_effect rnd s e) as [(Ht & _ & Hfull') _ _].
  destruct (step_reports s e a Hfull) as [Hr | [Hr Hf]].
  - rewrite <- Hr. rewrite <- Ht. apply IH. congruence.
  - rewrite <- Ht in Hf |- *.
    destruct (run_flagged es _ a Hf) as [Hr' _]. rewrite Hr'.
    rewrite Ht. lia.
Qed.

(** A call of the reporter that finds no flag: the call leaves, then
    the flag is written. *)
Lemma tryLogMetric_sends s a :
  storage_accessible (env s) = true ->
  storage_full (env s) = false ->
  truthy_str (localStorage (env s) !! logged_key (testId (this s)) a) = false ->
  tryLogMetric a s
  = (Normal tt,
     mkState (this s)
       (with_localStorage
          (<[logged_key (testId (this s)) a := "true"]> (localStorage (env s)))
          (with_apex_calls
             (apex_calls (env s)
                ++ [(mkPayload (testId (this s)) (assignedVariant (this s)) a
                               (visitorId (this s)), Pending)])
             (env s)))).
Proof.
  destruct s as [c [ls acc full n calls errs]]. cbn. intros -> -> Hflag.
  unfold tryLogMetric. mstep. fold (logged_key (testId c) a).
  now rewrite Hflag.
Qed.

(** The answer to a pending call. *)
Lemma settle_pending s i ok p :
  apex_calls (env s) !! i = Some (p, Pending) ->
  settle i ok s
  = (Normal tt,
     mkState (this s)
       (with_console_errors
          (console_errors (env s)
             ++ (if ok then [] else ["[AB Test] Logging failed"]))
          (with_apex_calls
             (<[i := (p, if ok then Fulfilled else Rejected)]> (apex_calls (env s)))
             (env s)))).
Proof.
  destruct s as [c [ls acc full n calls errs]]. cbn. intros Hi.
  unfold settle. cbn [this env apex_calls]. rewrite Hi.
  destruct ok; mstep; [| reflexivity].
  now rewrite List.app_nil_r.
Qed.

Lemma tryLogMetric_sends_frame s a :
  storage_accessible (env s) = true ->
  storage_full (env s) = false ->
  truthy_str (localStorage (env s) !! logged_key (testId (this s)) a) = false ->
  let s1 := snd (tryLogMetric a s) in
  fst (tryLogMetric a s) = Normal tt
  /\ apex_calls (env s1)
     = apex_calls (env s)
         ++ [(mkPayload (testId (this s)) (assignedVariant (this s)) a
                        (visitorId (this s)), Pending)]
  /\ localStorage (env s1)
     = <[logged_key (testId (this s)) a := "true"]> (localStorage (env s))
  /\ this s1 = this s
  /\ console_errors (env s1) = console_errors (env s).
Proof.
  intros Hacc Hfull Hflag. cbv zeta.
  rewrite (tryLogMetric_sends s a Hacc Hfull Hflag).
  destruct s as [c []]. repeat split.
Qed.

Lemma settle_pending_frame s i ok p :
  apex_calls (env s) !! i = Some (p, Pending) ->
  let s2 := snd (settle i ok s) in
  fst (settle i ok s) = Normal tt
  /\ this s2 = this s
  /\ localStorage (env s2) = localStorage (env s)
  /\ dispatched s2 = dispatched s
  /\ console_errors (env s2)
     = console_errors (env s) ++ (if ok then [] else ["[AB Test] Logging failed"]).
Proof.
  intros Hi. destruct (settle_effect i ok s) as (_ & Hd & Hthis & Hls).
  cbv zeta in *. repeat apply conj; try assumption.
  - now rewrite (settle_pending s i ok p Hi).
  - rewrite (settle_pending s i ok p Hi). destruct s as [c []]. reflexivity.
Qed.

(** A direct call of the reporter in a flagged state. *)
Lemma tryLogMetric_flagged s a :
  truthy_str (localStorage (env s) !! logged_key (testId (this s)) a) = true ->
  snd (tryLogMetric a s) = s.
Proof.
  intros Hflag. destruct s as [c b]. unfold tryLogMetric. mstep.
  fold (logged_key (testId c) a).
  destruct b as [ls acc full n calls errs]. cbn in Hflag.
  destruct acc; mstep; [| reflexivity].
  now rewrite Hflag.
Qed.

End Dedup.

(** C2. Once the flag of (testId, actionType) is in storage (with any
    non-empty value), no sequence of handlers (renders, clicks, mode
    changes, reconnects, server answers) dispatches a further call for
    that pair, the flag stays, and a direct call of the reporter changes
    nothing.  Hence, as long as storage accepts writes, any run of the
    component dispatches at most one call per pair. *)
Theorem C2_at_most_one_report_per_flag :
  forall (rnd : nat -> Q) (s : State) (a : string),
    (forall v, v <> "" ->
       localStorage (env s) !! logged_key (testId (this s)) a = Some v ->
       forall es, let s' := run rnd es s in
         reports (testId (this s)) a s' = reports (testId (this s)) a s
         /\ truthy_str (localStorage (env s') !! logged_key (testId (this s)) a) = true
         /\ snd (tryLogMetric a s') = s')
    /\ (storage_full (env s) = false ->
        forall es,
          List.length (reports (testId (this s)) a (run rnd es s))
          <= S (List.length (reports (testId (this s)) a s))).
Proof.
  intros rnd s a. split.
  - intros v Hv Hflag es s'.
    assert (Hf : truthy_str (localStorage (env s) !! logged_key (testId (this s)) a) = true)
      by (rewrite Hflag; now apply truthy_str_nonempty).
    destruct (run_flagged rnd es s a Hf) as [Hr Hf']. fold s' in Hr, Hf'.
    repeat split; [exact Hr | exact Hf' |].
    apply tryLogMetric_flagged.
    destruct (run_setting rnd es s) as (Ht & _). fold s' in Ht. now rewrite Ht.
  - intros Hfull es. now apply run_reports_at_most_one.
Qed.

Lemma C2_witness :
  (forall es, let s' := run low_draws es promo1_viewed in
     reports (Some "promo1") "View" s' = []
     /\ truthy_str (localStorage (env s') !! "AB_LOGGED_promo1_View") = true
     /\ snd (tryLogMetric "View" s') = s')
  /\ (forall es,
        List.length (reports (Some "promo1") "View" (run low_draws es promo1_assigned))
        <= 1).
Proof.
  split.
  - apply (proj1 (C2_at_most_one_report_per_flag low_draws promo1_viewed "View") "true");
      [discriminate | reflexivity].
  - apply (proj2 (C2_at_most_one_report_per_flag low_draws promo1_assigned "View")).
    reflexivity.
Defined.

(** C5. When the reporter sends (flag missing, storage working), the
    flag is written in the same synchronous step in which the call is
    dispatched, while that call is still pending.  Whichever way the call
    later settles, the component's fields and storage stay as they are;
    a rejection only appends one line to the console.  No later sequence
    of handlers, rejections included, dispatches the event again. *)
Theorem C5_flag_set_before_outcome :
  forall (rnd : nat -> Q) (s : State) (a : string),
    storage_accessible (env s) = true ->
    storage_full (env s) = false ->
    truthy_str (localStorage (env s) !! logged_key (testId (this s)) a) = false ->
    let s1 := snd (tryLogMetric a s) in
    let i := List.length (apex_calls (env s)) in
    fst (tryLogMetric a s) = Normal tt
    /\ apex_calls (env s1)
       = apex_calls (env s)
           ++ [(mkPayload (testId (this s)) (assignedVariant (this s)) a
                          (visitorId (this s)), Pending)]
    /\ localStorage (env s1)
       = <[logged_key (testId (this s)) a := "true"]> (localStorage (env s))
    /\ this s1 = this s
    /\ console_errors (env s1) = console_errors (env s)
    /\ (forall ok : bool,
          let s2 := snd (settle i ok s1) in
          fst (settle i ok s1) = Normal tt
          /\ this s2 = this s1
          /\ localStorage (env s2) = localStorage (env s1)
          /\ localStorage (env s2) !! logged_key (testId (this s)) a = Some "true"
          /\ dispatched s2 = dispatched s1
          /\ console_errors (env s2)
             = console_errors (env s1)
                 ++ (if ok then [] else ["[AB Test] Logging failed"])
          /\ snd (tryLogMetric a s2) = s2)
    /\ (forall es,
          reports (testId (this s)) a (run rnd es s1) = reports (testId (this s)) a s1).
Proof.
  intros rnd s a Hacc Hfull Hflag s1 i.
  destruct (tryLogMetric_sends_frame s a Hacc Hfull Hflag)
    as (H1 & Hcalls & Hls & Hthis & Hcon).
  fold s1 in Hcalls, Hls, Hthis, Hcon. clearbody s1.
  assert (Hset : localStorage (env s1) !! logged_key (testId (this s1)) a = Some "true")
    by (rewrite Hls, Hthis; apply lookup_insert_eq).
  repeat apply conj; try assumption.
  - intros ok s2.
    assert (Hi : apex_calls (env s1) !! i
                 = Some (mkPayload (testId (this s)) (assignedVariant (this s)) a
                                   (visitorId (this s)), Pending)).
    { rewrite Hcalls. subst i. rewrite lookup_app_r by reflexivity.
      now rewrite Nat.sub_diag. }
    destruct (settle_pending_frame s1 i ok _ Hi) as (G1 & G2 & G3 & G4 & G5).
    fold s2 in G2, G3, G4, G5. clearbody s2.
    repeat apply conj; try assumption.
    + rewrite G3, <- Hthis. exact Hset.
    + apply tryLogMetric_flagged. now rewrite G2, G3, Hset.
  - intros es. rewrite <- Hthis. apply run_flagged. now rewrite Hset.
Qed.

Lemma C5_witness :
  let s1 := snd (tryLogMetric "View" promo1_assigned) in
  fst (tryLogMetric "View" promo1_assigned) = Normal tt
  /\ localStorage (env s1) !! "AB_LOGGED_promo1_View" = Some "true"
  /\ List.map snd (apex_calls (env s1)) = [Pending]
  /\ console_errors (env (snd (settle 0 false s1))) = ["[AB Test] Logging failed"]
  /\ localStorage (env (snd (settle 0 false s1))) = localStorage (env s1)
  /\ forall es, reports (Some "promo1") "View" (run low_draws es s1)
                = reports (Some "promo1") "View" s1.
Proof.
  destruct (C5_flag_set_before_outcome low_draws promo1_assigned "View")
    as (H1 & H2 & H3 & _ & _ & H6 & H7);
    [reflexivity | reflexivity | reflexivity |].
  cbv zeta. split; [exact H1|]. split; [now rewrite H3|]. split; [now rewrite H2|].
  destruct (H6 false) as (_ & _ & G3 & _ & _ & G6 & _).
  split; [exact G6|]. split; [exact G3 | exact H7].
Defined.

(* ================================================================== *)
(** ** Visitor identity *)
(* ================================================================== *)

Lemma below_sixteen (v : Z) :
  (0 <= v < 16)%Z ->
  In v [0; 1; 2; 3; 4; 5; 6; 7; 8; 9; 10; 11; 12; 13; 14; 15]%Z.
Proof.
  intros H. cbn.
  assert (v = 0 \/ v = 1 \/ v = 2 \/ v = 3 \/ v = 4 \/ v = 5 \/ v = 6 \/ v = 7
          \/ v = 8 \/ v = 9 \/ v = 10 \/ v = 11 \/ v = 12 \/ v = 13 \/ v = 14
          \/ v = 15)%Z by lia.
  intuition auto.
Qed.

Lemma toString16_digit (v : Z) :
  (0 <= v < 16)%Z ->
  number_toString16 v = String (hex_char v) EmptyString
  /\ is_hex_digit (hex_char v) = true
  /\ is_variant_digit (hex_char (Z.lor (Z.land v 3) 8)) = true
  /\ (0 <= Z.lor (Z.land v 3) 8 < 16)%Z.
Proof.
  intros H. apply below_sixteen in H. cbn in H.
  repeat (destruct H as [<- | H]; [vm_compute; intuition congruence |]).
  contradiction.
Qed.

(** A draw from the unit interval, scaled by sixteen and cut to an
    integer, is below sixteen. *)
Lemma to_int32_scaled (r : Q) :
  (0 <= r)%Q -> (r < 1)%Q -> (0 <= to_int32 (r * inject_Z 16) < 16)%Z.
Proof.
  destruct r as [n d]. unfold Qle, Qlt, to_int32. cbn [Qnum Qden Qmult inject_Z].
  intros H0 H1. rewrite Pos.mul_1_r.
  assert (Hn : (0 <= n)%Z) by lia.
  assert (Hd : (n < Z.pos d)%Z) by lia.
  rewrite Z.quot_div_nonneg by lia.
  assert (Hq : (0 <= n * 16 / Z.pos d < 16)%Z).
  { split; [apply Z.div_pos; lia|]. apply Z.div_lt_upper_bound; lia. }
  rewrite Z.mod_small by lia. lia.
Qed.

Section VisitorId.

Variable rnd : nat -> Q.

Lemma visitor_present s v :
  storage_accessible (env s) = true ->
  localStorage (env s) !! STORAGE_KEY_VISITOR = Some v -> v <> "" ->
  initializeVisitorId rnd s
  = (Normal tt, mkState (with_visitorId (Some v) (this s)) (env s)).
Proof.
  intros Hacc Hv Hne. unfold initializeVisitorId, bind at 1, getItem.
  rewrite Hacc, Hv, (truthy_str_nonempty v Hne). reflexivity.
Qed.

Lemma visitor_unreadable s :
  storage_accessible (env s) = false ->
  initializeVisitorId rnd s = (Throw SecurityError, s).
Proof.
  intros Hacc. unfold initializeVisitorId, bind at 1, getItem.
  now rewrite Hacc.
Qed.

Lemma visitor_absent s :
  storage_accessible (env s) = true ->
  storage_full (env s) = false ->
  truthy_str (localStorage (env s) !! STORAGE_KEY_VISITOR) = false ->
  let fresh := fill rnd uuid_template (random_next (env s)) in
  initializeVisitorId rnd s
  = (Normal tt,
     mkState (with_visitorId (Some fresh) (this s))
       (with_localStorage (<[STORAGE_KEY_VISITOR := fresh]> (localStorage (env s)))
          (with_random_next (31 + random_next (env s)) (env s)))).
Proof.
  destruct s as [c [ls acc full n calls errs]]. cbn. intros -> -> Hv.
  unfold initializeVisitorId, bind at 1, getItem. cbn [this env storage_accessible localStorage].
  rewrite Hv. cbn [negb]. unfold bind at 1. rewrite generateUUID_fill.
  reflexivity.
Qed.

Lemma visitor_unwritable s :
  storage_accessible (env s) = true ->
  storage_full (env s) = true ->
  truthy_str (localStorage (env s) !! STORAGE_KEY_VISITOR) = false ->
  initializeVisitorId rnd s
  = (Throw QuotaExceededError,
     mkState (this s) (with_random_next (31 + random_next (env s)) (env s))).
Proof.
  destruct s as [c [ls acc full n calls errs]]. cbn. intros -> -> Hv.
  unfold initializeVisitorId, bind at 1, getItem. cbn [this env storage_accessible localStorage].
  rewrite Hv. cbn [negb]. unfold bind at 1. rewrite generateUUID_fill.
  reflexivity.
Qed.

Hypothesis rnd_unit : forall n, (0 <= rnd n)%Q /\ (rnd n < 1)%Q.

Lemma digit_at_x i :
  digit_at rnd "x" i
  = String (hex_char (to_int32 (rnd i * inject_Z 16))) EmptyString.
Proof.
  unfold digit_at. cbn [Ascii.eqb Bool.eqb].
  apply toString16_digit, to_int32_scaled; apply rnd_unit.
Qed.

Lemma digit_at_y i :
  digit_at rnd "y" i
  = String (hex_char (Z.lor (Z.land (to_int32 (rnd i * inject_Z 16)) 3) 8))
           EmptyString.
Proof.
  unfold digit_at. cbn [Ascii.eqb Bool.eqb].
  destruct (toString16_digit (to_int32 (rnd i * inject_Z 16))) as (_ & _ & _ & H).
  - apply to_int32_scaled; apply rnd_unit.
  - now apply toString16_digit.
Qed.

Lemma hex_digit_drawn i :
  is_hex_digit (hex_char (to_int32 (rnd i * inject_Z 16))) = true.
Proof. apply toString16_digit, to_int32_scaled; apply rnd_unit. Qed.

Lemma variant_digit_drawn i :
  is_variant_digit
    (hex_char (Z.lor (Z.land (to_int32 (rnd i * inject_Z 16)) 3) 8)) = true.
Proof. apply toString16_digit, to_int32_scaled; apply rnd_unit. Qed.

Lemma fill_is_uuid_v4 n : is_uuid_v4 (fill rnd uuid_template n) = true.
Proof.
  unfold uuid_template. cbn [fill Ascii.eqb Bool.eqb orb].
  rewrite !digit_at_x, digit_at_y.
  unfold is_uuid_v4.
  cbv beta iota delta [append].
  cbn [uuid_v4_from Nat.eqb orb Ascii.eqb Bool.eqb andb].
  rewrite !hex_digit_drawn, variant_digit_drawn. reflexivity.
Qed.

End VisitorId.

(** C7, as stated, fails on a storage failure.  When reading storage
    throws, [initializeVisitorId] does not fall back to generating an
    identifier: the exception leaves the method (and [connectedCallback]
    with it), no identifier is assigned and nothing is drawn.  When the
    write throws, the exception leaves the method as well, and the
    generated identifier is neither stored nor assigned. *)
Lemma C7_storage_failure_propagates :
  initializeVisitorId low_draws blocked_first_visit
  = (Throw SecurityError, blocked_first_visit)
  /\ fst (connectedCallback low_draws blocked_first_visit) = Throw SecurityError
  /\ visitorId (this (snd (connectedCallback low_draws blocked_first_visit))) = None
  /\ fst (initializeVisitorId low_draws full_first_visit) = Throw QuotaExceededError
  /\ visitorId (this (snd (initializeVisitorId low_draws full_first_visit))) = None
  /\ localStorage (env (snd (initializeVisitorId low_draws full_first_visit))) = ∅.
Proof. repeat split; vm_compute; reflexivity. Qed.

(** C7, amended.  [initializeVisitorId] reads the visitor key.  A
    non-empty stored value is assigned to [visitorId] unchanged and
    nothing in the browser changes.  When the read yields nothing (or the
    empty string) and storage takes the write, 31 draws are consumed to
    build a string in UUID version-4 layout, which is stored under the
    visitor key (no other key changes) and assigned to [visitorId].  The
    method handles no error: an exception of the read leaves the state
    untouched and propagates; an exception of the write propagates after
    the draws, with nothing stored and [visitorId] unchanged. *)
Theorem C7_visitor_id_reuse_or_generate :
  forall (rnd : nat -> Q),
    (forall n, (0 <= rnd n)%Q /\ (rnd n < 1)%Q) ->
    forall s : State,
      (forall v, storage_accessible (env s) = true ->
         localStorage (env s) !! STORAGE_KEY_VISITOR = Some v -> v <> "" ->
         initializeVisitorId rnd s
         = (Normal tt, mkState (with_visitorId (Some v) (this s)) (env s)))
      /\ (storage_accessible (env s) = true ->
          storage_full (env s) = false ->
          (localStorage (env s) !! STORAGE_KEY_VISITOR = None
           \/ localStorage (env s) !! STORAGE_KEY_VISITOR = Some "") ->
          exists fresh,
            is_uuid_v4 fresh = true
            /\ initializeVisitorId rnd s
               = (Normal tt,
                  mkState (with_visitorId (Some fresh) (this s))
                    (with_localStorage
                       (<[STORAGE_KEY_VISITOR := fresh]> (localStorage (env s)))
                       (with_random_next (31 + random_next (env s)) (env s)))))
      /\ (storage_accessible (env s) = false ->
          initializeVisitorId rnd s = (Throw SecurityError, s))
      /\ (storage_accessible (env s) = true ->
          storage_full (env s) = true ->
          (localStorage (env s) !! STORAGE_KEY_VISITOR = None
           \/ localStorage (env s) !! STORAGE_KEY_VISITOR = Some "") ->
          initializeVisitorId rnd s
          = (Throw QuotaExceededError,
             mkState (this s) (with_random_next (31 + random_next (env s)) (env s)))).
Proof.
  intros rnd Hunit s.
  assert (Hfalsy : localStorage (env s) !! STORAGE_KEY_VISITOR = None
                   \/ localStorage (env s) !! STORAGE_KEY_VISITOR = Some "" ->
                   truthy_str (localStorage (env s) !! STORAGE_KEY_VISITOR) = false)
    by (intros [-> | ->]; reflexivity).
  repeat apply conj.
  - intros v Hacc Hv Hne. now apply visitor_present.
  - intros Hacc Hfull Hv. exists (fill rnd uuid_template (random_next (env s))).
    split; [now apply fill_is_uuid_v4 | apply visitor_absent; auto].
  - apply visitor_unreadable.
  - intros Hacc Hfull Hv. apply visitor_unwritable; auto.
Qed.

Lemma low_draws_unit : forall n, (0 <= low_draws n)%Q /\ (low_draws n < 1)%Q.
Proof. intros n. unfold low_draws, Qle, Qlt. cbn. lia. Defined.

Lemma C7_witness :
  (exists fresh,
     is_uuid_v4 fresh = true
     /\ initializeVisitorId low_draws promo1_first_visit
        = (Normal tt,
           mkState (with_visitorId (Some fresh) (this promo1_first_visit))
             (with_localStorage
                (<[STORAGE_KEY_VISITOR := fresh]> (localStorage (env promo1_first_visit)))
                (with_random_next (31 + random_next (env promo1_first_visit))
                   (env promo1_first_visit)))))
  /\ initializeVisitorId low_draws blocked_first_visit
     = (Throw SecurityError, blocked_first_visit).
Proof.
  destruct (C7_visitor_id_reuse_or_generate low_draws low_draws_unit promo1_first_visit)
    as (_ & H & _).
  destruct (C7_visitor_id_reuse_or_generate low_draws low_draws_unit blocked_first_visit)
    as (_ & _ & G & _).
  split.
  - apply H; [reflexivity | reflexivity | left; reflexivity].
  - apply G. reflexivity.
Defined.

Example generateUUID_low_draws :
  fst (generateUUID low_draws promo1_first_visit)
  = Normal "44444444-4444-4444-8444-444444444444".
Proof. vm_compute. reflexivity. Qed.

(* ================================================================== *)
(** ** Links *)
(* ================================================================== *)

Lemma prefix_split (p s : string) :
  String.prefix p s = true <-> exists rest, s = p +:+ rest.
Proof.
  revert s. induction p as [|c p IH]; intros s.
  - split; [intros _; exists s; reflexivity | intros _; now destruct s].
  - destruct s as [|d s]; cbn.
    + split; [discriminate | intros [rest H]; discriminate].
    + destruct (ascii_dec c d) as [->|Hne].
      * rewrite IH. split; intros [rest H]; exists rest.
        -- cbv [append] in *. fold append in *. now rewrite H.
        -- cbv [append] in H. fold append in H. now injection H.
      * split; [discriminate|]. intros [rest H].
        cbv [append] in H. fold append in H. injection H. congruence.
Qed.

Lemma matches_scheme_spec (u : string) :
  matches_scheme u = true
  <-> exists scheme rest,
        In scheme ["http"; "https"; "mailto"; "tel"]
        /\ u = scheme +:+ ":" +:+ rest.
Proof.
  unfold matches_scheme, absolute_schemes. rewrite existsb_exists. split.
  - intros (scheme & Hin & Hp). apply prefix_split in Hp as [rest Hp].
    exists scheme, rest. split; [exact Hin|].
    rewrite Hp. clear. induction scheme; cbn; [reflexivity|].
    cbv [append]. fold append. f_equal. exact IHscheme.
  - intros (scheme & rest & Hin & ->). exists scheme. split; [exact Hin|].
    apply prefix_split. exists rest.
    clear. induction scheme; cbn; [reflexivity|].
    cbv [append]. fold append. f_equal. exact IHscheme.
Qed.

Lemma strip_no_slash (u : string) :
  startsWith u "/" = false -> strip_leading_slashes u = u.
Proof.
  destruct u as [|c u]; [reflexivity|].
  unfold startsWith. cbn [String.prefix strip_leading_slashes].
  destruct (Ascii.eqb_spec c "/") as [->|Hc]; [|reflexivity].
  destruct (ascii_dec "/" "/"); [|congruence]. now destruct u.
Qed.

Lemma strip_no_double_slash (u : string) :
  startsWith u "/" = true -> startsWith u "//" = false ->
  "/" +:+ strip_leading_slashes u = u.
Proof.
  destruct u as [|c u]; [discriminate|].
  unfold startsWith. cbn [String.prefix].
  destruct (ascii_dec "/" c) as [<-|]; [|discriminate]. intros _ H.
  cbn [strip_leading_slashes Ascii.eqb Bool.eqb].
  rewrite strip_no_slash; [reflexivity|]. exact H.
Qed.

(** C8, as stated, fails for an input that begins with more than one
    slash: the code keeps every slash the input brings. *)
Lemma C8_double_slash_kept :
  resolveUrl "/site" (Some "//foo") = "/site//foo"
  /\ spec_resolveLinkUrl "/site" (Some "//foo") = "/site/foo"
  /\ resolveUrl "/site" (Some "//foo") <> spec_resolveLinkUrl "/site" (Some "//foo").
Proof. repeat split. discriminate. Qed.

(** C8, amended.  [resolveUrl] returns ["#"] for a missing or empty
    input, and an input that starts with [http:], [https:], [mailto:] or
    [tel:] unchanged.  Any other input is appended to the site prefix,
    after one slash when it does not start with a slash and as it is when
    it does; so the result has exactly one slash after the prefix (and
    agrees with the specification) whenever the input does not begin with
    two slashes. *)
Theorem C8_resolveUrl_cases :
  forall (basePath : string) (url : option string),
    (url = None \/ url = Some "" -> resolveUrl basePath url = "#")
    /\ (forall u, url = Some u -> u <> "" ->
          (matches_scheme u = true -> resolveUrl basePath url = u)
          /\ (matches_scheme u = false -> startsWith u "/" = true ->
              resolveUrl basePath url = basePath +:+ u)
          /\ (matches_scheme u = false -> startsWith u "/" = false ->
              resolveUrl basePath url = basePath +:+ "/" +:+ u)
          /\ (startsWith u "//" = false ->
              resolveUrl basePath url = spec_resolveLinkUrl basePath url))
    /\ (forall u, matches_scheme u = true
                  <-> exists scheme rest,
                        In scheme ["http"; "https"; "mailto"; "tel"]
                        /\ u = scheme +:+ ":" +:+ rest)
    /\ resolveUrl basePath (Some "") = "#"
    /\ resolveUrl basePath (Some "tel:123") = "tel:123"
    /\ resolveUrl basePath (Some "foo") = basePath +:+ "/foo".
Proof.
  intros basePath url.
  assert (Hbase : (if truthy_string basePath then basePath else "") = basePath)
    by (unfold truthy_string; destruct (String.eqb_spec basePath ""); cbn; congruence).
  repeat apply conj.
  - intros [-> | ->]; reflexivity.
  - intros u -> Hne.
    unfold resolveUrl, spec_resolveLinkUrl. rewrite Hbase.
    rewrite (truthy_str_nonempty u Hne), (proj2 (String.eqb_neq u "") Hne).
    cbn [negb].
    repeat apply conj.
    + now intros ->.
    + now intros -> ->.
    + now intros -> ->.
    + intros Hdouble. destruct (matches_scheme u); [reflexivity|].
      destruct (startsWith u "/") eqn:Hs.
      * now rewrite strip_no_double_slash.
      * now rewrite strip_no_slash.
  - apply matches_scheme_spec.
  - reflexivity.
  - reflexivity.
  - unfold resolveUrl. rewrite Hbase. reflexivity.
Qed.

Lemma C8_witness :
  resolveUrl "/site" (Some "/about") = "/site" +:+ "/about"
  /\ resolveUrl "/site" (Some "https://example.com") = "https://example.com"
  /\ resolveUrl "/site" (Some "about") = spec_resolveLinkUrl "/site" (Some "about").
Proof.
  destruct (C8_resolveUrl_cases "/site" (Some "/about")) as (_ & H1 & _).
  destruct (C8_resolveUrl_cases "/site" (Some "https://example.com")) as (_ & H2 & _).
  destruct (C8_resolveUrl_cases "/site" (Some "about")) as (_ & H3 & _).
  destruct (H1 "/about") as (_ & G1 & _); [reflexivity | discriminate |].
  destruct (H2 "https://example.com") as (G2 & _); [reflexivity | discriminate |].
  destruct (H3 "about") as (_ & _ & _ & G3); [reflexivity | discriminate |].
  split; [| split].
  - apply G1; reflexivity.
  - apply G2; reflexivity.
  - apply G3; reflexivity.
Defined.

(* ================================================================== *)
(** ** Content keys *)
(* ================================================================== *)

Section ContentKey.

Variable JSON_parse : string -> completion value.

(** Everything that can throw sits inside the [try]. *)
Lemma extractContentKey_total ref :
  exists v, extractContentKey JSON_parse ref = Normal v.
Proof.
  unfold extractContentKey.
  destruct (truthy ref); cbn [negb]; [| eauto].
  destruct (match ref with VStr s => JSON_parse s | _ => Normal ref end)
    as [obj|e]; [| destruct (is_string ref); eauto].
  destruct (get_property obj "contentKey") as [k|e];
    [| destruct (is_string ref); eauto].
  destruct (truthy k); [eauto|].
  destruct (get_property obj "id") as [i|e];
    [| destruct (is_string ref); eauto].
  destruct (truthy i); eauto.
Qed.

Lemma extractContentKey_fields ref obj :
  truthy ref = true -> read_from JSON_parse ref obj ->
  extractContentKey JSON_parse ref
  = match get_property obj "contentKey" with
    | Normal k =>
        if truthy k then Normal k
        else match get_property obj "id" with
             | Normal i => if truthy i then Normal i else Normal VNull
             | Throw _ => if is_string ref then Normal ref else Normal VNull
             end
    | Throw _ => if is_string ref then Normal ref else Normal VNull
    end.
Proof.
  intros Ht Hr. unfold extractContentKey. rewrite Ht. cbn [negb].
  assert (E : match ref with VStr s => JSON_parse s | _ => Normal ref end = Normal obj)
    by (destruct ref; cbn in Hr; subst; auto).
  rewrite E.
  destruct (get_property obj "contentKey") as [k|e]; [|reflexivity].
  destruct (truthy k); [reflexivity|].
  destruct (get_property obj "id") as [i|e]; [|reflexivity].
  destruct (truthy i); reflexivity.
Qed.

End ContentKey.

(** C9, as stated, fails on an unparseable string: the result is the
    string itself, not null. *)
Lemma C9_unparseable_string_is_kept :
  Json.parse "summer-banner" = Throw SyntaxError
  /\ extractContentKey Json.parse (VStr "summer-banner") = Normal (VStr "summer-banner")
  /\ extractContentKey Json.parse (VStr "summer-banner") <> Normal VNull.
Proof. repeat split. discriminate. Qed.

(** C9, amended.  [extractContentKey] never throws.  A missing reference
    (undefined, null, the empty string, any falsy value) gives null.
    Otherwise the fields are read from the parsed text of a string
    reference, or from the reference itself: a truthy [contentKey] is
    returned, else a truthy [id], else null.  A string that [JSON.parse]
    rejects, or whose parse has no readable fields, is returned as it is;
    a reference that is not a string and whose fields cannot be read gives
    null.  The object with [contentKey] k1, its JSON text and the bare
    string k1 all give k1 ([JSON.parse] rejecting the bare string and
    reading the text as that object). *)
Theorem C9_extractContentKey :
  forall (JSON_parse : string -> completion value),
    JSON_parse "k1" = Throw SyntaxError ->
    JSON_parse (Json.stringify_member "contentKey" "k1")
    = Normal (VObj [("contentKey", Normal (VStr "k1"))]) ->
    (forall ref, exists v, extractContentKey JSON_parse ref = Normal v)
    /\ (forall ref, truthy ref = false ->
          extractContentKey JSON_parse ref = Normal VNull)
    /\ (forall ref obj, truthy ref = true -> read_from JSON_parse ref obj ->
          (forall k, get_property obj "contentKey" = Normal k -> truthy k = true ->
             extractContentKey JSON_parse ref = Normal k)
          /\ (forall k i, get_property obj "contentKey" = Normal k -> truthy k = false ->
                get_property obj "id" = Normal i -> truthy i = true ->
                extractContentKey JSON_parse ref = Normal i)
          /\ (forall k i, get_property obj "contentKey" = Normal k -> truthy k = false ->
                get_property obj "id" = Normal i -> truthy i = false ->
                extractContentKey JSON_parse ref = Normal VNull))
    /\ (forall s e, s <> "" -> JSON_parse s = Throw e ->
          extractContentKey JSON_parse (VStr s) = Normal (VStr s))
    /\ (forall s obj e, s <> "" -> JSON_parse s = Normal obj ->
          get_property obj "contentKey" = Throw e ->
          extractContentKey JSON_parse (VStr s) = Normal (VStr s))
    /\ (forall ref e, truthy ref = true -> is_string ref = false ->
          get_property ref "contentKey" = Throw e ->
          extractContentKey JSON_parse ref = Normal VNull)
    /\ extractContentKey JSON_parse (VObj [("contentKey", Normal (VStr "k1"))])
       = Normal (VStr "k1")
    /\ extractContentKey JSON_parse (VStr (Json.stringify_member "contentKey" "k1"))
       = Normal (VStr "k1")
    /\ extractContentKey JSON_parse (VStr "k1") = Normal (VStr "k1").
Proof.
  intros JSON_parse Hraw Htext.
  split; [apply extractContentKey_total|].
  split; [intros ref Hf; unfold extractContentKey; now rewrite Hf|].
  split.
  { intros ref obj Ht Hr.
    rewrite (extractContentKey_fields JSON_parse ref obj Ht Hr).
    split; [| split].
    - intros k -> ->. reflexivity.
    - intros k i -> -> -> ->. reflexivity.
    - intros k i -> -> -> ->. reflexivity. }
  split.
  { intros s e Hs Hp. unfold extractContentKey.
    cbn [truthy]. unfold truthy_string.
    rewrite (proj2 (String.eqb_neq s "") Hs). cbn [negb].
    rewrite Hp. reflexivity. }
  split.
  { intros s obj e Hs Hp Hg.
    rewrite (extractContentKey_fields JSON_parse (VStr s) obj); [| | exact Hp].
    - now rewrite Hg.
    - cbn [truthy]. unfold truthy_string.
      now rewrite (proj2 (String.eqb_neq s "") Hs). }
  split.
  { intros ref e Ht Hns Hg.
    rewrite (extractContentKey_fields JSON_parse ref ref Ht).
    - now rewrite Hg, Hns.
    - destruct ref; try reflexivity. discriminate Hns. }
  split; [reflexivity|]. split.
  - unfold extractContentKey. cbn [truthy]. rewrite Htext. reflexivity.
  - unfold extractContentKey. cbn [truthy]. rewrite Hraw. reflexivity.
Qed.

Lemma C9_witness :
  extractContentKey Json.parse (VStr (Json.stringify_member "contentKey" "k1"))
  = Normal (VStr "k1")
  /\ extractContentKey Json.parse (VStr "k1") = Normal (VStr "k1")
  /\ extractContentKey Json.parse (VObj [("contentKey", Normal (VStr "k1"))])
     = Normal (VStr "k1")
  /\ extractContentKey Json.parse VUndefined = Normal VNull.
Proof.
  destruct (C9_extractContentKey Json.parse)
    as (_ & Hmissing & _ & _ & _ & _ & Hobj & Htext & Hraw);
    [reflexivity | reflexivity |].
  split; [exact Htext|]. split; [exact Hraw|]. split; [exact Hobj|].
  apply Hmissing. reflexivity.
Defined.

(** A raw identifier that happens to be valid JSON is not kept: the
    number it parses to has no fields, and the result is null. *)
Example numeric_identifier_is_dropped :
  extractContentKey Json.parse (VStr "12345") = Normal VNull.
Proof. reflexivity. Qed.

(* ================================================================== *)
(** ** The display bundle *)
(* ================================================================== *)

Section Display.

Variable basePath : string.
Variable JSON_parse : string -> completion value.

Lemma currentData_B c :
  assignedVariant c <> Some "A" ->
  exists key,
    extractContentKey JSON_parse (variantB_ImageContent c) = Normal key
    /\ currentData basePath JSON_parse c
       = Normal
           {| imageUrl := constructCmsUrl basePath key;
              altText := variantB_Title c;
              title := variantB_Title c;
              description := variantB_Description c;
              buttonLabel := variantB_ButtonLabel c;
              buttonUrl := resolveUrl basePath (variantB_ButtonUrl c);
              imageStyle :=
                "width: 100%; height: "
                +:+ number_toString
                      (match imageHeight c with
                       | Some h => if Z.eqb h 0 then 400%Z else h
                       | None => 400%Z
                       end)
                +:+ "px; object-fit: cover; object-position: "
                +:+ or_default (variantB_ImagePosition c) "center"
                +:+ "; border-radius: 4px;" |}.
Proof.
  intros HA.
  destruct (extractContentKey_total JSON_parse (variantB_ImageContent c)) as [key Hk].
  exists key. split; [exact Hk|].
  unfold currentData, contentKeyB.
  assert (E : match assignedVariant c with
              | Some v => String.eqb v "A"
              | None => false
              end = false).
  { destruct (assignedVariant c) as [v|]; [|reflexivity].
    apply String.eqb_neq. congruence. }
  rewrite E, Hk. reflexivity.
Qed.

Lemma currentData_A c :
  assignedVariant c = Some "A" ->
  exists key,
    extractContentKey JSON_parse (variantA_ImageContent c) = Normal key
    /\ currentData basePath JSON_parse c
       = Normal
           {| imageUrl := constructCmsUrl basePath key;
              altText := variantA_Title c;
              title := variantA_Title c;
              description := variantA_Description c;
              buttonLabel := variantA_ButtonLabel c;
              buttonUrl := resolveUrl basePath (variantA_ButtonUrl c);
              imageStyle :=
                "width: 100%; height: "
                +:+ number_toString
                      (match imageHeight c with
                       | Some h => if Z.eqb h 0 then 400%Z else h
                       | None => 400%Z
                       end)
                +:+ "px; object-fit: cover; object-position: "
                +:+ or_default (variantA_ImagePosition c) "center"
                +:+ "; border-radius: 4px;" |}.
Proof.
  intros HA.
  destruct (extractContentKey_total JSON_parse (variantA_ImageContent c)) as [key Hk].
  exists key. split; [exact Hk|].
  unfold currentData, contentKeyA. rewrite HA.
  cbn [String.eqb Ascii.eqb Bool.eqb]. rewrite Hk. reflexivity.
Qed.

End Display.



(* ================================================================== *)
(** ** The end-to-end scenario *)
(* ================================================================== *)

(** Test [promo1] in mode [Auto] with empty storage: connecting persists
    a variant, and of two renders and a reconnect only the first render
    reports the view. *)
Example promo1_first_page_view :
  let s := run low_draws [Connected; Rendered; Rendered; Connected; Rendered]
               promo1_first_visit in
  localStorage (env s) !! "AB_TEST_ASSIGNMENT_promo1" = Some "A"
  /\ assignedVariant (this s) = Some "A"
  /\ localStorage (env s) !! "AB_LOGGED_promo1_View" = Some "true"
  /\ localStorage (env s) !! "DXFORCE_VISITOR_ID"
     = Some "44444444-4444-4444-8444-444444444444"
  /\ dispatched s
     = [mkPayload (Some "promo1") (Some "A") "View"
                  (Some "44444444-4444-4444-8444-444444444444")].
Proof. vm_compute. repeat split. Qed.


(* ================================================================== *)
(** ** Further properties: what each method may touch *)
(* ================================================================== *)

Lemma same_content_refl c : same_content c c.
Proof. reflexivity. Qed.

Lemma same_content_trans c1 c2 c3 :
  same_content c1 c2 -> same_content c2 c3 -> same_content c1 c3.
Proof. unfold same_content. congruence. Qed.

Lemma same_content_fields c c' :
  same_content c c' ->
  testId c' = testId c /\ imageHeight c' = imageHeight c
  /\ variantA_ImageContent c' = variantA_ImageContent c
  /\ variantA_ImagePosition c' = variantA_ImagePosition c
  /\ variantA_Title c' = variantA_Title c
  /\ variantA_Description c' = variantA_Description c
  /\ variantA_ButtonLabel c' = variantA_ButtonLabel c
  /\ variantA_ButtonUrl c' = variantA_ButtonUrl c
  /\ variantB_ImageContent c' = variantB_ImageContent c
  /\ variantB_ImagePosition c' = variantB_ImagePosition c
  /\ variantB_Title c' = variantB_Title c
  /\ variantB_Description c' = variantB_Description c
  /\ variantB_ButtonLabel c' = variantB_ButtonLabel c
  /\ variantB_ButtonUrl c' = variantB_ButtonUrl c.
Proof.
  destruct c, c'. unfold same_content. cbn. intros H. injection H.
  intros; subst. repeat split.
Qed.

Lemma same_content_assigned a c : same_content c (with_assignedVariant a c).
Proof. destruct c. reflexivity. Qed.

Lemma same_content_visitor v c : same_content c (with_visitorId v c).
Proof. destruct c. reflexivity. Qed.

Lemma same_content_mode m c : same_content c (with_previewMode m c).
Proof. destruct c. reflexivity. Qed.

#[local] Hint Resolve same_content_refl same_content_assigned
  same_content_visitor same_content_mode : core.

Section Methods.

Variable rnd : nat -> Q.

Lemma resolve_unreadable s t :
  forced (_previewMode (this s)) = false ->
  testId (this s) = Some t -> t <> "" ->
  storage_accessible (env s) = false ->
  initializeAssignment rnd s = (Throw SecurityError, s).
Proof.
  unfold forced. intros Hm Ht Hne Hacc.
  apply orb_false_elim in Hm as [HA HB].
  unfold initializeAssignment, bind, read, assign, getItem. cbn.
  rewrite HA, HB, Ht, (truthy_str_nonempty t Hne). cbn.
  now rewrite Hacc.
Qed.

Lemma resolve_unwritable s t :
  forced (_previewMode (this s)) = false ->
  testId (this s) = Some t -> t <> "" ->
  storage_accessible (env s) = true ->
  storage_full (env s) = true ->
  truthy_str (localStorage (env s) !! (STORAGE_KEY_ASSIGNMENT +:+ t)) = false ->
  initializeAssignment rnd s
  = (Throw QuotaExceededError,
     mkState (with_assignedVariant
                (Some (drawn_variant (rnd (random_next (env s))))) (this s))
             (with_random_next (S (random_next (env s))) (env s))).
Proof.
  unfold forced. intros Hm Ht Hne Hacc Hfull Hv.
  apply orb_false_elim in Hm as [HA HB].
  unfold initializeAssignment, bind, read, assign, getItem, setItem, Math_random.
  cbn. rewrite HA, HB, Ht, (truthy_str_nonempty t Hne). cbn.
  rewrite Hacc, Hv. cbn. rewrite Hacc, Hfull. reflexivity.
Qed.

Lemma tryLogMetric_unreadable a s :
  storage_accessible (env s) = false ->
  tryLogMetric a s = (Throw SecurityError, s).
Proof.
  intros Hacc. unfold tryLogMetric, bind at 1, read at 1. cbn [this env].
  unfold bind at 1, getItem. now rewrite Hacc.
Qed.

Lemma tryLogMetric_unwritable a s :
  storage_accessible (env s) = true ->
  storage_full (env s) = true ->
  truthy_str (localStorage (env s) !! logged_key (testId (this s)) a) = false ->
  tryLogMetric a s
  = (Throw QuotaExceededError,
     mkState (this s)
       (with_apex_calls
          (apex_calls (env s)
             ++ [(mkPayload (testId (this s)) (assignedVariant (this s)) a
                            (visitorId (this s)), Pending)])
          (env s))).
Proof.
  destruct s as [c [ls acc full n calls errs]]. cbn. intros -> -> Hflag.
  unfold tryLogMetric. mstep. fold (logged_key (testId c) a).
  now rewrite Hflag.
Qed.

(** [tryLogMetric] leaves the instance alone, writes at most its own flag
    and dispatches at most one call, for its own action. *)
Lemma tryLogMetric_summary a s :
  let s' := snd (tryLogMetric a s) in
  this s' = this s
  /\ storage_accessible (env s') = storage_accessible (env s)
  /\ storage_full (env s') = storage_full (env s)
  /\ (forall k, k <> logged_key (testId (this s)) a ->
        localStorage (env s') !! k = localStorage (env s) !! k)
  /\ (forall v, v <> "" ->
        localStorage (env s) !! logged_key (testId (this s)) a = Some v ->
        localStorage (env s') !! logged_key (testId (this s)) a = Some v)
  /\ (dispatched s' = dispatched s
      \/ (storage_accessible (env s) = true
          /\ truthy_str (localStorage (env s) !! logged_key (testId (this s)) a) = false
          /\ dispatched s'
             = dispatched s
                 ++ [mkPayload (testId (this s)) (assignedVariant (this s)) a
                               (visitorId (this s))])).
Proof.
  cbv zeta.
  destruct (storage_accessible (env s)) eqn:Hacc.
  2:{ rewrite (tryLogMetric_unreadable a s Hacc). cbn [snd].
      rewrite Hacc. repeat split; auto. }
  destruct (truthy_str (localStorage (env s) !! logged_key (testId (this s)) a))
    eqn:Hflag.
  { rewrite (tryLogMetric_flagged s a Hflag). rewrite Hacc. repeat split; auto. }
  destruct (storage_full (env s)) eqn:Hfull.
  - rewrite (tryLogMetric_unwritable a s Hacc Hfull Hflag). cbn [snd this env].
    destruct s as [c [ls acc full n calls errs]]. cbn in *.
    repeat split; auto.
    right. repeat split; auto. unfold dispatched. cbn. now rewrite List.map_app.
  - rewrite (tryLogMetric_sends s a Hacc Hfull Hflag). cbn [snd this env].
    destruct s as [c [ls acc full n calls errs]]. cbn in *.
    repeat split; auto.
    + intros k Hk. now rewrite lookup_insert_ne.
    + intros v Hv Hst. rewrite Hst in Hflag.
      now rewrite (truthy_str_nonempty v Hv) in Hflag.
    + right. repeat split; auto. unfold dispatched. cbn. now rewrite List.map_app.
Qed.

(** A resolution changes [assignedVariant] and nothing else of the
    instance; in storage it can only fill the missing assignment entry of
    the configured test; it dispatches and logs nothing and makes at
    most one draw. *)
Lemma initializeAssignment_summary s :
  let s' := snd (initializeAssignment rnd s) in
  same_content (this s) (this s')
  /\ _previewMode (this s') = _previewMode (this s)
  /\ visitorId (this s') = visitorId (this s)
  /\ storage_accessible (env s') = storage_accessible (env s)
  /\ storage_full (env s') = storage_full (env s)
  /\ apex_calls (env s') = apex_calls (env s)
  /\ console_errors (env s') = console_errors (env s)
  /\ (forall k, k <> assignment_key (testId (this s)) ->
        localStorage (env s') !! k = localStorage (env s) !! k)
  /\ (forall v, v <> "" ->
        localStorage (env s) !! assignment_key (testId (this s)) = Some v ->
        localStorage (env s') !! assignment_key (testId (this s)) = Some v)
  /\ (random_next (env s) <= random_next (env s') <= S (random_next (env s)))%nat.
Proof.
  cbv zeta. destruct s as [c b]. unfold initializeAssignment. mstep.
  destruct (String.eqb (_previewMode c) "Force A");
    [destruct c; cbn; repeat split; auto; lia |].
  destruct (String.eqb (_previewMode c) "Force B");
    [destruct c; cbn; repeat split; auto; lia |].
  destruct (truthy_str (testId c)) eqn:Htid;
    [| destruct c; cbn; repeat split; auto; lia].
  fold (assignment_key (testId c)).
  destruct b as [ls acc full n calls errs].
  destruct acc; mstep; [| cbn; repeat split; auto; lia].
  destruct (truthy_str (ls !! assignment_key (testId c))) eqn:Hst;
    [destruct c; cbn; repeat split; auto; lia |].
  destruct full; [destruct c; cbn; repeat split; auto; lia |].
  cbn [this env localStorage storage_accessible storage_full apex_calls
       console_errors random_next].
  repeat split; auto; try (destruct c; reflexivity); try lia.
  - intros k Hk. now rewrite lookup_insert_ne.
  - intros v Hv Hs. rewrite Hs in Hst.
    now rewrite (truthy_str_nonempty v Hv) in Hst.
Qed.

(** [initializeVisitorId] changes [visitorId] and nothing else of the
    instance; in storage it can only fill the missing visitor entry; it
    dispatches and logs nothing. *)
Lemma initializeVisitorId_summary s :
  let s' := snd (initializeVisitorId rnd s) in
  same_content (this s) (this s')
  /\ _previewMode (this s') = _previewMode (this s)
  /\ assignedVariant (this s') = assignedVariant (this s)
  /\ storage_accessible (env s') = storage_accessible (env s)
  /\ storage_full (env s') = storage_full (env s)
  /\ apex_calls (env s') = apex_calls (env s)
  /\ console_errors (env s') = console_errors (env s)
  /\ (forall k, k <> STORAGE_KEY_VISITOR ->
        localStorage (env s') !! k = localStorage (env s) !! k)
  /\ (forall v, v <> "" ->
        localStorage (env s) !! STORAGE_KEY_VISITOR = Some v ->
        localStorage (env s') !! STORAGE_KEY_VISITOR = Some v).
Proof.
  cbv zeta.
  destruct (storage_accessible (env s)) eqn:Hacc.
  2:{ rewrite (visitor_unreadable rnd s Hacc). cbn [snd]. rewrite Hacc.
      repeat split; auto. }
  destruct (truthy_str (localStorage (env s) !! STORAGE_KEY_VISITOR)) eqn:Hv.
  { apply truthy_str_Some in Hv as (v & Hv & Hne).
    rewrite (visitor_present rnd s v Hacc Hv Hne). cbn [snd this env].
    rewrite Hacc. destruct s as [c b]; destruct c; cbn in *. repeat split; auto. }
  destruct (storage_full (env s)) eqn:Hfull.
  - rewrite (visitor_unwritable rnd s Hacc Hfull Hv).
    destruct s as [c [ls acc full n calls errs]]. cbn in *.
    repeat split; auto.
  - rewrite (visitor_absent rnd s Hacc Hfull Hv).
    destruct s as [c [ls acc full n calls errs]]. destruct c. cbn in *.
    repeat split; auto.
    + intros k Hk. now rewrite lookup_insert_ne.
    + intros v Hne Hst. rewrite Hst in Hv.
      now rewrite (truthy_str_nonempty v Hne) in Hv.
Qed.

Lemma settle_summary i ok s :
  let s' := snd (settle i ok s) in
  this s' = this s
  /\ localStorage (env s') = localStorage (env s)
  /\ storage_accessible (env s') = storage_accessible (env s)
  /\ storage_full (env s') = storage_full (env s)
  /\ dispatched s' = dispatched s.
Proof.
  destruct (settle_effect i ok s) as ([(_ & Hacc & Hfull) _ _] & Hd & Ht & Hl).
  cbv zeta in *. repeat split; assumption.
Qed.

End Methods.

(* ================================================================== *)
(** ** Further properties: one event *)
(* ================================================================== *)

Section Steps.

Variable rnd : nat -> Q.

Lemma step_connected s :
  step rnd s Connected
  = match initializeVisitorId rnd s with
    | (Normal _, s1) => snd (initializeAssignment rnd s1)
    | (Throw _, s1) => s1
    end.
Proof.
  unfold step. cbn [handler]. unfold connectedCallback, bind.
  now destruct (initializeVisitorId rnd s) as [[[]|err] s1].
Qed.

Lemma step_guarded s (a : string) :
  snd ((ok <- read reporting_enabled;; if ok then tryLogMetric a else ret tt) s)
  = if reporting_enabled (this s) then snd (tryLogMetric a s) else s.
Proof.
  unfold bind at 1, read at 1. cbn [this env].
  now destruct (reporting_enabled (this s)).
Qed.

Lemma step_set_mode s v :
  step rnd s (SetPreviewMode v)
  = snd (initializeAssignment rnd (mkState (with_previewMode v (this s)) (env s))).
Proof. reflexivity. Qed.

(** No event changes the configured content; the mode changes only
    through its setter. *)
Lemma step_content s e :
  same_content (this s) (this (step rnd s e))
  /\ _previewMode (this (step rnd s e))
     = match mode_set_by e with
       | Some v => v
       | None => _previewMode (this s)
       end.
Proof.
  destruct e as [| | |v|i ok]; cbn [mode_set_by].
  - rewrite step_connected.
    destruct (initializeVisitorId_summary rnd s) as (Hc & Hm & _).
    destruct (initializeVisitorId rnd s) as [[[]|err] s1]; cbn [snd] in *;
      [| now split].
    destruct (initializeAssignment_summary rnd s1) as (Hc' & Hm' & _).
    split; [eapply same_content_trans; eassumption | congruence].
  - unfold step. cbn [handler]. unfold renderedCallback. rewrite step_guarded.
    destruct (reporting_enabled (this s)); [|now split].
    destruct (tryLogMetric_summary "View" s) as (-> & _). now split.
  - unfold step. cbn [handler]. unfold handleButtonClick. rewrite step_guarded.
    destruct (reporting_enabled (this s)); [|now split].
    destruct (tryLogMetric_summary "Click" s) as (-> & _). now split.
  - rewrite step_set_mode.
    destruct (initializeAssignment_summary rnd
                (mkState (with_previewMode v (this s)) (env s))) as (Hc & Hm & _).
    cbn [this env] in *. split.
    + eapply same_content_trans; [apply same_content_mode | exact Hc].
    + rewrite Hm. now destruct (this s).
  - unfold step. cbn [handler].
    destruct (settle_summary i ok s) as (-> & _). now split.
Qed.

Lemma step_testId s e : testId (this (step rnd s e)) = testId (this s).
Proof.
  destruct (step_content s e) as [Hc _]. now apply same_content_fields in Hc.
Qed.

(** No event removes or overwrites a non-empty entry of storage, and the
    only keys an event can write are the visitor key, the assignment key
    of the configured test and its two flags. *)
Lemma step_storage s e :
  storage_accessible (env (step rnd s e)) = storage_accessible (env s)
  /\ storage_full (env (step rnd s e)) = storage_full (env s)
  /\ (forall k v, v <> "" -> localStorage (env s) !! k = Some v ->
        localStorage (env (step rnd s e)) !! k = Some v)
  /\ (forall k, k <> STORAGE_KEY_VISITOR ->
        k <> assignment_key (testId (this s)) ->
        k <> logged_key (testId (this s)) "View" ->
        k <> logged_key (testId (this s)) "Click" ->
        localStorage (env (step rnd s e)) !! k = localStorage (env s) !! k).
Proof.
  assert (Hparts : forall (s0 s1 : State) (k0 : string),
             (forall k, k <> k0 ->
                localStorage (env s1) !! k = localStorage (env s0) !! k) ->
             (forall v, v <> "" -> localStorage (env s0) !! k0 = Some v ->
                localStorage (env s1) !! k0 = Some v) ->
             forall k v, v <> "" -> localStorage (env s0) !! k = Some v ->
                         localStorage (env s1) !! k = Some v).
  { intros s0 s1 k0 Hother Hown k v Hv Hk.
    destruct (decide (k = k0)) as [->|Hne]; [now apply Hown|].
    now rewrite Hother. }
  destruct e as [| | |v|i ok].
  - rewrite step_connected.
    destruct (initializeVisitorId_summary rnd s)
      as (Hc & _ & _ & Hacc & Hfull & _ & _ & Hother & Hown).
    destruct (initializeVisitorId rnd s) as [[[]|err] s1]; cbn [snd] in *.
    2:{ split; [exact Hacc|]. split; [exact Hfull|]. split.
        - now apply (Hparts s s1 STORAGE_KEY_VISITOR).
        - intros k Hk _ _ _. now apply Hother. }
    apply same_content_fields in Hc as (Ht & _).
    destruct (initializeAssignment_summary rnd s1)
      as (_ & _ & _ & Hacc' & Hfull' & _ & _ & Hother' & Hown' & _).
    rewrite Ht in Hother', Hown'.
    split; [congruence|]. split; [congruence|]. split.
    + intros k v Hv Hk.
      apply (Hparts s1 _ (assignment_key (testId (this s)))); auto.
      now apply (Hparts s s1 STORAGE_KEY_VISITOR).
    + intros k Hk1 Hk2 _ _. rewrite Hother' by assumption. now apply Hother.
  - unfold step. cbn [handler]. unfold renderedCallback. rewrite step_guarded.
    destruct (reporting_enabled (this s)); [|repeat split; auto].
    destruct (tryLogMetric_summary "View" s) as (_ & Hacc & Hfull & Hother & Hown & _).
    split; [exact Hacc|]. split; [exact Hfull|]. split.
    + now apply (Hparts s _ (logged_key (testId (this s)) "View")).
    + intros k _ _ Hk _. now apply Hother.
  - unfold step. cbn [handler]. unfold handleButtonClick. rewrite step_guarded.
    destruct (reporting_enabled (this s)); [|repeat split; auto].
    destruct (tryLogMetric_summary "Click" s) as (_ & Hacc & Hfull & Hother & Hown & _).
    split; [exact Hacc|]. split; [exact Hfull|]. split.
    + now apply (Hparts s _ (logged_key (testId (this s)) "Click")).
    + intros k _ _ _ Hk. now apply Hother.
  - rewrite step_set_mode.
    set (s1 := mkState (with_previewMode v (this s)) (env s)).
    assert (Ht : testId (this s1) = testId (this s)) by (subst s1; now destruct (this s)).
    destruct (initializeAssignment_summary rnd s1)
      as (_ & _ & _ & Hacc' & Hfull' & _ & _ & Hother' & Hown' & _).
    rewrite Ht in Hother', Hown'.
    split; [exact Hacc'|]. split; [exact Hfull'|]. split.
    + intros k w Hw Hk.
      now apply (Hparts s1 _ (assignment_key (testId (this s)))).
    + intros k _ Hk _ _. now apply Hother'.
  - unfold step. cbn [handler].
    destruct (settle_summary i ok s) as (_ & Hl & Hacc & Hfull & _).
    rewrite Hl. repeat split; auto.
Qed.

(** An event dispatches nothing, or one call: a render the view, a click
    the click, and only when reporting is enabled, storage can be read
    and the flag is missing. *)
Lemma step_dispatch s e :
  dispatched (step rnd s e) = dispatched s
  \/ (exists a,
        ((e = Rendered /\ a = "View") \/ (e = Click /\ a = "Click"))
        /\ reporting_enabled (this s) = true
        /\ storage_accessible (env s) = true
        /\ truthy_str (localStorage (env s) !! logged_key (testId (this s)) a) = false
        /\ dispatched (step rnd s e)
           = dispatched s
               ++ [mkPayload (testId (this s)) (assignedVariant (this s)) a
                             (visitorId (this s))]).
Proof.
  destruct e as [| | |v|i ok].
  - left. rewrite step_connected.
    destruct (initializeVisitorId_summary rnd s) as (_ & _ & _ & _ & _ & Hc & _).
    destruct (initializeVisitorId rnd s) as [[[]|err] s1]; cbn [snd] in *;
      unfold dispatched.
    + destruct (initializeAssignment_summary rnd s1)
        as (_ & _ & _ & _ & _ & Hc' & _).
      now rewrite Hc', Hc.
    + now rewrite Hc.
  - unfold step. cbn [handler]. unfold renderedCallback. rewrite step_guarded.
    destruct (reporting_enabled (this s)) eqn:Hen; [|now left].
    destruct (tryLogMetric_summary "View" s) as (_ & _ & _ & _ & _ & [H|H]);
      [now left|].
    right. exists "View". destruct H as (H1 & H2 & H3). repeat split; auto.
  - unfold step. cbn [handler]. unfold handleButtonClick. rewrite step_guarded.
    destruct (reporting_enabled (this s)) eqn:Hen; [|now left].
    destruct (tryLogMetric_summary "Click" s) as (_ & _ & _ & _ & _ & [H|H]);
      [now left|].
    right. exists "Click". destruct H as (H1 & H2 & H3). repeat split; auto.
  - left. rewrite step_set_mode.
    destruct (initializeAssignment_summary rnd
                (mkState (with_previewMode v (this s)) (env s)))
      as (_ & _ & _ & _ & _ & Hc' & _).
    unfold dispatched. now rewrite Hc'.
  - left. unfold step. cbn [handler].
    now destruct (settle_summary i ok s) as (_ & _ & _ & _ & ->).
Qed.

End Steps.

(* ================================================================== *)
(** ** Further properties: whole runs *)
(* ================================================================== *)

Section Runs.

Variable rnd : nat -> Q.

Lemma run_cons e es s : run rnd (e :: es) s = run rnd es (step rnd s e).
Proof. reflexivity. Qed.

Lemma run_testId es s : testId (this (run rnd es s)) = testId (this s).
Proof.
  revert s. induction es as [|e es IH]; intros s; [reflexivity|].
  rewrite run_cons, IH. apply step_testId.
Qed.

Lemma run_health es s :
  storage_accessible (env (run rnd es s)) = storage_accessible (env s)
  /\ storage_full (env (run rnd es s)) = storage_full (env s).
Proof.
  revert s. induction es as [|e es IH]; intros s; [now split|].
  rewrite run_cons. destruct (IH (step rnd s e)) as [-> ->].
  destruct (step_storage rnd s e) as (H1 & H2 & _). now split.
Qed.

Lemma run_keeps_entry es s k v :
  v <> "" -> localStorage (env s) !! k = Some v ->
  localStorage (env (run rnd es s)) !! k = Some v.
Proof.
  revert s. induction es as [|e es IH]; intros s Hv Hk; [exact Hk|].
  rewrite run_cons. apply IH; [exact Hv|].
  destruct (step_storage rnd s e) as (_ & _ & H & _). now apply H.
Qed.

Lemma run_foreign_key es s k :
  k <> STORAGE_KEY_VISITOR ->
  k <> assignment_key (testId (this s)) ->
  k <> logged_key (testId (this s)) "View" ->
  k <> logged_key (testId (this s)) "Click" ->
  localStorage (env (run rnd es s)) !! k = localStorage (env s) !! k.
Proof.
  revert s. induction es as [|e es IH]; intros s H1 H2 H3 H4; [reflexivity|].
  rewrite run_cons. rewrite IH; rewrite ?step_testId; auto.
  destruct (step_storage rnd s e) as (_ & _ & _ & H). now apply H.
Qed.

Lemma run_content es s : same_content (this s) (this (run rnd es s)).
Proof.
  revert s. induction es as [|e es IH]; intros s; [apply same_content_refl|].
  rewrite run_cons. eapply same_content_trans; [|apply IH].
  apply step_content.
Qed.

End Runs.

(** X1. Storage only grows.  Whatever sequence of events the component
    goes through, an entry of storage that holds a non-empty value keeps
    that value, and the only keys whose entry can change at all are the
    visitor key, the assignment key of the configured test and the two
    flags of that test: entries of other tests and of other applications
    are never touched. *)
Theorem X1_storage_only_grows :
  forall (rnd : nat -> Q) (s : State) (es : list event),
    (forall k v, v <> "" -> localStorage (env s) !! k = Some v ->
       localStorage (env (run rnd es s)) !! k = Some v)
    /\ (forall k, k <> STORAGE_KEY_VISITOR ->
          k <> assignment_key (testId (this s)) ->
          k <> logged_key (testId (this s)) "View" ->
          k <> logged_key (testId (this s)) "Click" ->
          localStorage (env (run rnd es s)) !! k = localStorage (env s) !! k).
Proof.
  intros rnd s es. split.
  - intros k v. apply run_keeps_entry.
  - intros k. apply run_foreign_key.
Qed.

Lemma X1_witness :
  (forall es,
     localStorage (env (run low_draws es promo1_shared_storage)) !! "cart"
     = Some "3 items")
  /\ (forall es,
        localStorage (env (run low_draws es promo1_shared_storage))
        !! "AB_TEST_ASSIGNMENT_other" = None).
Proof.
  split; intros es;
    destruct (X1_storage_only_grows low_draws promo1_shared_storage es) as [H1 H2].
  - apply H1; [discriminate | reflexivity].
  - rewrite H2; [reflexivity | discriminate ..].
Defined.

Section Preview.

Variable rnd : nat -> Q.

Lemma not_auto_disables c :
  is_auto (_previewMode c) = false -> reporting_enabled c = false.
Proof.
  unfold is_auto, reporting_enabled. intros ->. apply andb_false_r.
Qed.

Lemma logged_key_not_assignment tid tid' a :
  logged_key tid a <> assignment_key tid'.
Proof. discriminate. Qed.

Lemma logged_key_not_visitor' tid a : logged_key tid a <> STORAGE_KEY_VISITOR.
Proof. discriminate. Qed.

(** Outside the mode [Auto] no event dispatches a call or touches a
    flag. *)
Lemma step_outside_auto s e :
  is_auto (_previewMode (this s)) = false ->
  dispatched (step rnd s e) = dispatched s
  /\ forall a, localStorage (env (step rnd s e)) !! logged_key (testId (this s)) a
               = localStorage (env s) !! logged_key (testId (this s)) a.
Proof.
  intros Hmode. apply not_auto_disables in Hmode.
  destruct (step_dispatch rnd s e) as [Hd | (a & _ & Hen & _)]; [|congruence].
  split; [exact Hd|]. intros a.
  destruct e as [| | |v|i ok].
  - rewrite step_connected.
    destruct (initializeVisitorId_summary rnd s)
      as (Hc & _ & _ & _ & _ & _ & _ & Hother & _).
    destruct (initializeVisitorId rnd s) as [[[]|err] s1]; cbn [snd] in *.
    + destruct (initializeAssignment_summary rnd s1)
        as (_ & _ & _ & _ & _ & _ & _ & Hother' & _).
      rewrite Hother' by apply logged_key_not_assignment.
      apply Hother, logged_key_not_visitor'.
    + apply Hother, logged_key_not_visitor'.
  - unfold step. cbn [handler]. unfold renderedCallback.
    now rewrite step_guarded, Hmode.
  - unfold step. cbn [handler]. unfold handleButtonClick.
    now rewrite step_guarded, Hmode.
  - rewrite step_set_mode.
    destruct (initializeAssignment_summary rnd
                (mkState (with_previewMode v (this s)) (env s)))
      as (_ & _ & _ & _ & _ & _ & _ & Hother' & _).
    rewrite Hother' by apply logged_key_not_assignment. reflexivity.
  - unfold step. cbn [handler].
    now destruct (settle_summary i ok s) as (_ & -> & _).
Qed.

End Preview.

(** X2. Previews are never measured.  As long as the mode is not
    [Auto] (it starts on another value and no event switches to [Auto])
    no call is dispatched and no flag of the test is written, however
    often the banner renders or is clicked. *)
Theorem X2_previews_are_not_reported :
  forall (rnd : nat -> Q) (es : list event) (s : State),
    is_auto (_previewMode (this s)) = false ->
    never_sets is_auto es ->
    dispatched (run rnd es s) = dispatched s
    /\ forall a, localStorage (env (run rnd es s)) !! logged_key (testId (this s)) a
                 = localStorage (env s) !! logged_key (testId (this s)) a.
Proof.
  intros rnd es. induction es as [|e es IH]; intros s Hmode Hnever; [now split|].
  rewrite run_cons. inversion Hnever as [|e' es' He Hes]; subst.
  destruct (step_outside_auto rnd s e Hmode) as [Hd Hk].
  destruct (step_content rnd s e) as [_ Hm].
  assert (Hmode' : is_auto (_previewMode (this (step rnd s e))) = false).
  { rewrite Hm. destruct (mode_set_by e); [exact He | exact Hmode]. }
  destruct (IH (step rnd s e) Hmode' Hes) as [Hd' Hk'].
  rewrite step_testId in Hk'.
  split; [congruence|]. intros a. now rewrite Hk', Hk.
Qed.

Lemma X2_witness :
  dispatched (run low_draws
                [Connected; Rendered; Click; SetPreviewMode "Force A"; Rendered; Click]
                promo1_in_builder) = []
  /\ localStorage
       (env (run low_draws
               [Connected; Rendered; Click; SetPreviewMode "Force A"; Rendered; Click]
               promo1_in_builder))
     !! logged_key (Some "promo1") "View" = None.
Proof.
  destruct (X2_previews_are_not_reported low_draws
              [Connected; Rendered; Click; SetPreviewMode "Force A"; Rendered; Click]
              promo1_in_builder) as [H1 H2].
  - reflexivity.
  - repeat constructor.
  - split; [exact H1 | exact (H2 "View")].
Defined.

Section Reports.

Variable rnd : nat -> Q.

Lemma enabled_parts c :
  reporting_enabled c = true ->
  truthy_str (assignedVariant c) = true /\ truthy_str (testId c) = true
  /\ _previewMode c = "Auto".
Proof.
  unfold reporting_enabled. intros H.
  apply andb_true_iff in H as [H Hm]. apply andb_true_iff in H as [Ha Ht].
  repeat split; auto. now apply String.eqb_eq.
Qed.

(** What a run adds to the dispatched calls. *)
Lemma run_dispatch es s :
  exists new,
    dispatched (run rnd es s) = dispatched s ++ new
    /\ Forall (well_formed_report (testId (this s))) new.
Proof.
  revert s. induction es as [|e es IH]; intros s.
  - exists []. split; [now rewrite List.app_nil_r | constructor].
  - rewrite run_cons. destruct (IH (step rnd s e)) as (new & Hd & Hwf).
    rewrite step_testId in Hwf.
    destruct (step_dispatch rnd s e) as [Hs | (a & Ha & Hen & _ & _ & Hs)].
    + exists new. split; [now rewrite Hd, Hs | exact Hwf].
    + apply enabled_parts in Hen as (Hav & Ht & _).
      eexists (_ :: new). split.
      * rewrite Hd, Hs, <- List.app_assoc. reflexivity.
      * constructor; [|exact Hwf].
        repeat split; auto. cbn.
        destruct Ha as [[_ ->] | [_ ->]]; auto.
Qed.

Lemma well_formed_split tid new :
  Forall (well_formed_report tid) new ->
  List.length new
  = (List.length (List.filter (is_report tid "View") new)
     + List.length (List.filter (is_report tid "Click") new))%nat.
Proof.
  induction 1 as [|p new (Ht & _ & Ha & _) _ IH]; [reflexivity|].
  assert (Hp : (is_report tid "View" p = true /\ is_report tid "Click" p = false)
               \/ (is_report tid "View" p = false /\ is_report tid "Click" p = true)).
  { unfold is_report. rewrite bool_decide_eq_true_2 by exact Ht.
    destruct Ha as [-> | ->]; auto. }
  cbn [List.filter]. destruct Hp as [[-> ->] | [-> ->]]; cbn [List.length]; lia.
Qed.

End Reports.

(** X3. Every call a run of the component dispatches is for the
    configured (non-empty) test, for the action View or Click, and
    carries a non-empty variant; and while storage accepts writes a run
    dispatches at most two calls in all, one per action. *)
Theorem X3_reports_are_well_formed :
  forall (rnd : nat -> Q) (s : State) (es : list event),
    exists new,
      dispatched (run rnd es s) = dispatched s ++ new
      /\ Forall (well_formed_report (testId (this s))) new
      /\ (storage_full (env s) = false -> List.length new <= 2).
Proof.
  intros rnd s es. destruct (run_dispatch rnd es s) as (new & Hd & Hwf).
  exists new. split; [exact Hd|]. split; [exact Hwf|]. intros Hfull.
  rewrite (well_formed_split _ _ Hwf).
  assert (Hone : forall a,
             List.length (List.filter (is_report (testId (this s)) a) new) <= 1).
  { intros a. pose proof (run_reports_at_most_one rnd es s a Hfull) as H.
    unfold reports in H. rewrite Hd, List.filter_app, List.length_app in H. lia. }
  pose proof (Hone "View"). pose proof (Hone "Click"). lia.
Qed.

Lemma X3_witness :
  exists new,
    dispatched (run low_draws [Connected; Rendered; Click; Rendered; Click]
                    promo1_first_visit) = new
    /\ Forall (well_formed_report (Some "promo1")) new
    /\ List.length new <= 2.
Proof.
  destruct (X3_reports_are_well_formed low_draws promo1_first_visit
              [Connected; Rendered; Click; Rendered; Click])
    as (new & Hd & Hwf & Hlen).
  exists new. split; [exact Hd|]. split; [exact Hwf|]. apply Hlen. reflexivity.
Defined.

Section Sync.

Variable rnd : nat -> Q.

(** With a working storage a resolution always ends in sync. *)
Lemma resolve_in_sync s :
  storage_accessible (env s) = true ->
  storage_full (env s) = false ->
  assignment_in_sync (snd (initializeAssignment rnd s)).
Proof.
  intros Hacc Hfull. unfold assignment_in_sync.
  destruct (forced (_previewMode (this s))) eqn:Hm.
  { (* a forced mode is not the mode Auto *)
    destruct (initializeAssignment_summary rnd s) as (_ & Hmode & _).
    intros Hen. apply enabled_parts in Hen as (_ & _ & Hauto).
    rewrite Hmode in Hauto. rewrite Hauto in Hm. discriminate. }
  destruct (truthy_str (testId (this s))) eqn:Ht.
  2:{ destruct (initializeAssignment_summary rnd s) as (Hc & _).
      apply same_content_fields in Hc as (Hid & _).
      intros Hen. apply enabled_parts in Hen as (_ & Hen & _).
      rewrite Hid in Hen. congruence. }
  apply truthy_str_Some in Ht as (t & Ht & Hne).
  destruct (truthy_str (localStorage (env s) !! (STORAGE_KEY_ASSIGNMENT +:+ t)))
    eqn:Hst.
  - apply truthy_str_Some in Hst as (v & Hst & Hv).
    rewrite (resolve_stored rnd s t v Hm Ht Hne Hacc Hst Hv). intros _.
    destruct s as [c b]; destruct c; cbn in *. subst. exact Hst.
  - pose proof (resolve_fresh rnd s t Hm Ht Hne Hacc Hfull Hst) as E.
    cbv zeta in E. rewrite E. intros _.
    destruct s as [c b]; destruct c; destruct b; cbn in *. subst.
    apply lookup_insert_eq.
Qed.

Lemma step_in_sync s e :
  storage_accessible (env s) = true ->
  storage_full (env s) = false ->
  assignment_in_sync s ->
  assignment_in_sync (step rnd s e).
Proof.
  intros Hacc Hfull Hsync.
  assert (Hkeep : forall s', this s' = this s ->
            localStorage (env s') !! assignment_key (testId (this s))
            = localStorage (env s) !! assignment_key (testId (this s)) ->
            assignment_in_sync s').
  { intros s' Hthis Hkey. unfold assignment_in_sync in *.
    rewrite Hthis, Hkey. exact Hsync. }
  destruct e as [| | |v|i ok].
  - rewrite step_connected.
    destruct (initializeVisitorId_summary rnd s)
      as (Hc & Hm & Ha & Hacc' & Hfull' & _ & _ & Hother & _).
    destruct (initializeVisitorId rnd s) as [[[]|err] s1]; cbn [snd] in *.
    + apply resolve_in_sync; congruence.
    + apply same_content_fields in Hc as (Hid & _).
      unfold assignment_in_sync in *. unfold reporting_enabled in *.
      rewrite Hm, Ha, Hid. rewrite Hother by discriminate. exact Hsync.
  - unfold step. cbn [handler]. unfold renderedCallback. rewrite step_guarded.
    destruct (reporting_enabled (this s)); [|exact Hsync].
    destruct (tryLogMetric_summary "View" s) as (Hthis & _ & _ & Hother & _).
    apply Hkeep; [exact Hthis|]. apply Hother. discriminate.
  - unfold step. cbn [handler]. unfold handleButtonClick. rewrite step_guarded.
    destruct (reporting_enabled (this s)); [|exact Hsync].
    destruct (tryLogMetric_summary "Click" s) as (Hthis & _ & _ & Hother & _).
    apply Hkeep; [exact Hthis|]. apply Hother. discriminate.
  - rewrite step_set_mode. now apply resolve_in_sync.
  - unfold step. cbn [handler].
    destruct (settle_summary i ok s) as (Hthis & Hl & _).
    apply Hkeep; [exact Hthis | now rewrite Hl].
Qed.

End Sync.

(** X4. The variant that is reported is the variant that is stored.
    With a working storage, starting from a state in sync (a new
    instance is, having no assignment yet), every call dispatched during
    a run carries as its variant the value found under the test's
    assignment key when the run ends; and the run ends in sync. *)
Theorem X4_reported_variant_is_the_stored_one :
  forall (rnd : nat -> Q) (es : list event) (s : State),
    storage_accessible (env s) = true ->
    storage_full (env s) = false ->
    assignment_in_sync s ->
    assignment_in_sync (run rnd es s)
    /\ exists new,
         dispatched (run rnd es s) = dispatched s ++ new
         /\ Forall (fun p =>
                      localStorage (env (run rnd es s))
                      !! assignment_key (testId (this s)) = p_variant p) new.
Proof.
  intros rnd es. induction es as [|e es IH]; intros s Hacc Hfull Hsync.
  - split; [exact Hsync|]. exists []. split; [now rewrite List.app_nil_r | constructor].
  - rewrite run_cons.
    destruct (step_storage rnd s e) as (Hacc' & Hfull' & _).
    destruct (IH (step rnd s e)) as (Hend & new & Hd & Hall);
      [congruence | congruence | now apply step_in_sync |].
    split; [exact Hend|]. rewrite step_testId in Hall.
    destruct (step_dispatch rnd s e) as [Hs | (a & _ & Hen & _ & _ & Hs)].
    + exists new. split; [now rewrite Hd, Hs | exact Hall].
    + eexists (_ :: new). split.
      * rewrite Hd, Hs, <- List.app_assoc. reflexivity.
      * constructor; [|exact Hall]. cbn [p_variant].
        pose proof (Hsync Hen) as Hstored.
        apply enabled_parts in Hen as (Hav & _ & _).
        apply truthy_str_Some in Hav as (v & Hav & Hv).
        rewrite Hav in *.
        apply (run_keeps_entry rnd es (step rnd s e)); [exact Hv|].
        destruct (step_storage rnd s e) as (_ & _ & Hkeep & _).
        now apply Hkeep.
Qed.

Lemma X4_witness :
  exists new,
    dispatched (run high_draws [Connected; Rendered; Click] promo1_first_visit)
    = new
    /\ Forall (fun p =>
                 localStorage
                   (env (run high_draws [Connected; Rendered; Click]
                             promo1_first_visit))
                 !! assignment_key (Some "promo1") = p_variant p) new.
Proof.
  destruct (X4_reported_variant_is_the_stored_one high_draws
              [Connected; Rendered; Click] promo1_first_visit)
    as (_ & new & Hd & Hall);
    [reflexivity | reflexivity | discriminate |].
  exists new. split; [exact Hd | exact Hall].
Defined.

Section VisitorReuse.

Variable rnd : nat -> Q.

Lemma length_append (a b : string) :
  String.length (a +:+ b) = (String.length a + String.length b)%nat.
Proof.
  induction a as [|c a IH]; [reflexivity|].
  cbv [append]. fold append. cbn [String.length]. now rewrite IH.
Qed.

(** The characters of the template that are no placeholders all survive. *)
Lemma fill_length tpl i :
  (String.length tpl - placeholders tpl <= String.length (fill rnd tpl i))%nat.
Proof.
  revert i. induction tpl as [|c tpl IH]; intros i; [cbn; lia|].
  cbn [fill placeholders String.length].
  destruct (Ascii.eqb c "x" || Ascii.eqb c "y").
  - rewrite length_append. specialize (IH (S i)). lia.
  - cbn [String.length]. specialize (IH i). lia.
Qed.

Lemma generated_id_nonempty i : fill rnd uuid_template i <> "".
Proof.
  intros H. pose proof (fill_length uuid_template i) as Hlen.
  rewrite H in Hlen. vm_compute in Hlen. lia.
Qed.

End VisitorReuse.

(** X5. A visitor keeps its identifier.  Once a non-empty identifier is
    stored under the visitor key, no sequence of events changes it, and
    every later [initializeVisitorId] (with readable storage) assigns
    exactly that identifier to [visitorId] and changes nothing in the
    browser. *)
Theorem X5_visitor_id_is_kept :
  forall (rnd : nat -> Q) (s : State) (v : string) (es : list event),
    v <> "" ->
    localStorage (env s) !! STORAGE_KEY_VISITOR = Some v ->
    storage_accessible (env s) = true ->
    let s' := run rnd es s in
    localStorage (env s') !! STORAGE_KEY_VISITOR = Some v
    /\ initializeVisitorId rnd s'
       = (Normal tt, mkState (with_visitorId (Some v) (this s')) (env s')).
Proof.
  intros rnd s v es Hv Hst Hacc s'.
  assert (Hst' : localStorage (env s') !! STORAGE_KEY_VISITOR = Some v)
    by now apply run_keeps_entry.
  split; [exact Hst'|].
  apply visitor_present; [|exact Hst'|exact Hv].
  subst s'. destruct (run_health rnd es s) as [-> _]. exact Hacc.
Qed.

Lemma X5_witness :
  let s' := run low_draws [Connected; Rendered; Click; Connected]
                promo1_known_visitor in
  localStorage (env s') !! STORAGE_KEY_VISITOR = Some "v-1"
  /\ initializeVisitorId low_draws s'
     = (Normal tt, mkState (with_visitorId (Some "v-1") (this s')) (env s')).
Proof.
  apply (X5_visitor_id_is_kept low_draws promo1_known_visitor "v-1");
    [discriminate | reflexivity | reflexivity].
Defined.

(** X6. An identifier is generated once.  On a first visit with a
    working storage, [initializeVisitorId] generates and stores an
    identifier; run again, it assigns the same identifier without drawing
    or writing anything, whatever the draws are. *)
Theorem X6_visitor_id_generated_once :
  forall (rnd : nat -> Q) (s : State),
    storage_accessible (env s) = true ->
    storage_full (env s) = false ->
    truthy_str (localStorage (env s) !! STORAGE_KEY_VISITOR) = false ->
    let s1 := snd (initializeVisitorId rnd s) in
    let s2 := snd (initializeVisitorId rnd s1) in
    exists fresh,
      fresh <> ""
      /\ visitorId (this s1) = Some fresh
      /\ localStorage (env s1) !! STORAGE_KEY_VISITOR = Some fresh
      /\ random_next (env s1) = (31 + random_next (env s))%nat
      /\ fst (initializeVisitorId rnd s1) = Normal tt
      /\ visitorId (this s2) = Some fresh
      /\ env s2 = env s1.
Proof.
  intros rnd s Hacc Hfull Hv s1 s2.
  pose proof (visitor_absent rnd s Hacc Hfull Hv) as E. cbv zeta in E.
  set (fresh := fill rnd uuid_template (random_next (env s))) in *.
  assert (Hne : fresh <> "") by apply generated_id_nonempty.
  exists fresh. subst s2 s1. rewrite E. cbn [snd].
  set (s1 := mkState _ _).
  assert (Hst : localStorage (env s1) !! STORAGE_KEY_VISITOR = Some fresh)
    by (subst s1; destruct s as [c []]; cbn; apply lookup_insert_eq).
  assert (Hacc1 : storage_accessible (env s1) = true)
    by (subst s1; destruct s as [c []]; exact Hacc).
  rewrite (visitor_present rnd s1 fresh Hacc1 Hst Hne). cbn [fst snd this env].
  split; [exact Hne|]. split; [subst s1; now destruct s as [[] []]|].
  split; [exact Hst|]. split; [subst s1; now destruct s as [[] []]|].
  split; [reflexivity|]. split; [now destruct (this s1) | reflexivity].
Qed.

Lemma X6_witness :
  exists fresh,
    fresh <> ""
    /\ visitorId (this (snd (initializeVisitorId high_draws promo1_first_visit)))
       = Some fresh
    /\ visitorId
         (this (snd (initializeVisitorId high_draws
                       (snd (initializeVisitorId high_draws promo1_first_visit)))))
       = Some fresh.
Proof.
  destruct (X6_visitor_id_generated_once high_draws promo1_first_visit)
    as (fresh & H1 & H2 & _ & _ & _ & H6 & _);
    [reflexivity | reflexivity | reflexivity |].
  exists fresh. split; [exact H1|]. split; [exact H2 | exact H6].
Defined.

(** X7. A forced preview does not stick.  When a value is stored for
    the test, switching to [Force A] or [Force B] shows the forced
    variant, and switching back to any other mode restores the stored
    variant; the browser is exactly as before the two switches. *)
Theorem X7_preview_does_not_stick :
  forall (rnd : nat -> Q) (s : State) (t v preview back : string),
    testId (this s) = Some t -> t <> "" ->
    storage_accessible (env s) = true ->
    localStorage (env s) !! (STORAGE_KEY_ASSIGNMENT +:+ t) = Some v -> v <> "" ->
    preview = "Force A" \/ preview = "Force B" ->
    forced back = false ->
    let s1 := snd (set_previewMode rnd preview s) in
    let s2 := snd (set_previewMode rnd back s1) in
    assignedVariant (this s1) = Some (if String.eqb preview "Force A" then "A" else "B")
    /\ fst (set_previewMode rnd back s1) = Normal tt
    /\ assignedVariant (this s2) = Some v
    /\ _previewMode (this s2) = back
    /\ env s2 = env s.
Proof.
  intros rnd s t v preview back Ht Hne Hacc Hst Hv Hp Hb s1 s2.
  assert (E1 : s1 = mkState (with_assignedVariant
                               (Some (if String.eqb preview "Force A" then "A" else "B"))
                               (with_previewMode preview (this s))) (env s)).
  { subst s1. unfold set_previewMode, bind at 1, assign at 1.
    destruct Hp as [-> | ->].
    - now rewrite resolve_force_A by now destruct (this s).
    - now rewrite resolve_force_B by now destruct (this s). }
  assert (E2 : set_previewMode rnd back s1
               = (Normal tt,
                  mkState (with_assignedVariant (Some v)
                             (with_previewMode back (this s1))) (env s1))).
  { unfold set_previewMode, bind at 1, assign at 1.
    apply (resolve_stored rnd
             (mkState (with_previewMode back (this s1)) (env s1)) t v);
      cbn [this env]; auto.
    - rewrite E1. cbn. now destruct (this s).
    - now rewrite E1.
    - now rewrite E1. }
  subst s2. rewrite E2. cbn [fst snd this env]. rewrite E1. cbn [this env].
  repeat split; now destruct (this s).
Qed.

Lemma X7_witness :
  let s1 := snd (set_previewMode low_draws "Force A" promo1_returning) in
  let s2 := snd (set_previewMode low_draws "Auto" s1) in
  assignedVariant (this s1) = Some "A"
  /\ fst (set_previewMode low_draws "Auto" s1) = Normal tt
  /\ assignedVariant (this s2) = Some "B"
  /\ _previewMode (this s2) = "Auto"
  /\ env s2 = env promo1_returning.
Proof.
  apply (X7_preview_does_not_stick low_draws promo1_returning "promo1" "B"
           "Force A" "Auto");
    [reflexivity | discriminate | reflexivity | reflexivity | discriminate
    | left; reflexivity | reflexivity].
Defined.

Section Blocked.

Variable rnd : nat -> Q.

(** With storage disabled and a test configured, an event that does not
    force a variant leaves the assignment, the visitor id, storage and
    the dispatched calls as they are. *)
Lemma step_blocked s e t :
  testId (this s) = Some t -> t <> "" ->
  storage_accessible (env s) = false ->
  match mode_set_by e with Some v => forced v = false | None => True end ->
  assignedVariant (this (step rnd s e)) = assignedVariant (this s)
  /\ visitorId (this (step rnd s e)) = visitorId (this s)
  /\ localStorage (env (step rnd s e)) = localStorage (env s)
  /\ dispatched (step rnd s e) = dispatched s
  /\ random_next (env (step rnd s e)) = random_next (env s).
Proof.
  intros Ht Hne Hacc He.
  destruct e as [| | |v|i ok]; cbn [mode_set_by] in He.
  - rewrite step_connected, (visitor_unreadable rnd s Hacc). repeat split.
  - unfold step. cbn [handler]. unfold renderedCallback. rewrite step_guarded.
    rewrite (tryLogMetric_unreadable "View" s Hacc). cbn [snd].
    destruct (reporting_enabled (this s)); repeat split.
  - unfold step. cbn [handler]. unfold handleButtonClick. rewrite step_guarded.
    rewrite (tryLogMetric_unreadable "Click" s Hacc). cbn [snd].
    destruct (reporting_enabled (this s)); repeat split.
  - rewrite step_set_mode.
    assert (E : initializeAssignment rnd
                  (mkState (with_previewMode v (this s)) (env s))
                = (Throw SecurityError,
                   mkState (with_previewMode v (this s)) (env s))).
    { apply (resolve_unreadable rnd _ t); cbn [this env]; auto;
        now destruct (this s). }
    rewrite E. cbn [snd this env]. repeat split; now destruct (this s).
  - unfold step. cbn [handler]. unfold settle.
    destruct (apex_calls (env s) !! i) as [[p st]|] eqn:Hi; [|repeat split].
    destruct st; [|repeat split ..].
    assert (Hmap : forall st', List.map fst (<[i := (p, st')]> (apex_calls (env s)))
                        = List.map fst (apex_calls (env s))).
    { intros st'. rewrite list_fmap_insert. cbn.
      apply list_insert_id. rewrite list_lookup_fmap, Hi. reflexivity. }
    destruct ok; unfold console_error, dispatched; destruct s as [c []];
      cbn in *; rewrite Hmap; repeat split.
Qed.

End Blocked.



(** X9. When the flag cannot be written, nothing is deduplicated.  The
    reporter dispatches the call before it writes the flag; with a
    storage that refuses writes the call has left when the write throws,
    so every render while reporting is enabled dispatches the view again:
    [n] renders, [n] calls, and storage unchanged. *)
Theorem X9_full_storage_reports_every_render :
  forall (rnd : nat -> Q) (n : nat) (s : State),
    storage_accessible (env s) = true ->
    storage_full (env s) = true ->
    reporting_enabled (this s) = true ->
    truthy_str (localStorage (env s) !! logged_key (testId (this s)) "View") = false ->
    let s' := run rnd (List.repeat Rendered n) s in
    dispatched s'
    = dispatched s
        ++ List.repeat (mkPayload (testId (this s)) (assignedVariant (this s))
                                  "View" (visitorId (this s))) n
    /\ localStorage (env s') = localStorage (env s)
    /\ this s' = this s.
Proof.
  intros rnd n. induction n as [|n IH]; intros s Hacc Hfull Hen Hflag.
  - cbn. now rewrite List.app_nil_r.
  - cbn [List.repeat]. cbv zeta. rewrite run_cons.
    assert (E : step rnd s Rendered
                = mkState (this s)
                    (with_apex_calls
                       (apex_calls (env s)
                          ++ [(mkPayload (testId (this s)) (assignedVariant (this s))
                                         "View" (visitorId (this s)), Pending)])
                       (env s))).
    { unfold step. cbn [handler]. unfold renderedCallback.
      rewrite step_guarded, Hen.
      now rewrite (tryLogMetric_unwritable "View" s Hacc Hfull Hflag). }
    rewrite E. set (s1 := mkState _ _).
    assert (H1 : this s1 = this s) by reflexivity.
    assert (H2 : localStorage (env s1) = localStorage (env s))
      by (subst s1; now destruct s as [c []]).
    assert (H3 : dispatched s1
                 = dispatched s
                     ++ [mkPayload (testId (this s)) (assignedVariant (this s))
                                   "View" (visitorId (this s))])
      by (subst s1; destruct s as [c []]; unfold dispatched; cbn;
          now rewrite List.map_app).
    destruct (IH s1) as (G1 & G2 & G3).
    + subst s1. now destruct s as [c []].
    + subst s1. now destruct s as [c []].
    + now rewrite H1.
    + now rewrite H1, H2.
    + rewrite G1, G2, G3, H1, H2, H3, <- List.app_assoc. now repeat split.
Qed.

Lemma X9_witness :
  List.length (dispatched (run low_draws (List.repeat Rendered 3) promo1_assigned_full))
  = 3
  /\ localStorage (env (run low_draws (List.repeat Rendered 3) promo1_assigned_full))
     !! "AB_LOGGED_promo1_View" = None.
Proof.
  destruct (X9_full_storage_reports_every_render low_draws 3 promo1_assigned_full)
    as (H1 & H2 & _);
    [reflexivity | reflexivity | reflexivity | reflexivity |].
  split; [now rewrite H1 | now rewrite H2].
Defined.

(** X10. When the assignment cannot be written, it is drawn again.  With
    a storage that refuses writes and nothing stored for the test, a
    resolution in a non-forced mode sets [assignedVariant] from its draw
    and then throws, leaving storage as it was; the next resolution
    draws afresh, so two resolutions in a row follow two successive
    draws and may disagree. *)
Theorem X10_full_storage_redraws :
  forall (rnd : nat -> Q) (s : State) (t : string),
    forced (_previewMode (this s)) = false ->
    testId (this s) = Some t -> t <> "" ->
    storage_accessible (env s) = true ->
    storage_full (env s) = true ->
    truthy_str (localStorage (env s) !! (STORAGE_KEY_ASSIGNMENT +:+ t)) = false ->
    let s1 := snd (initializeAssignment rnd s) in
    let s2 := snd (initializeAssignment rnd s1) in
    fst (initializeAssignment rnd s) = Throw QuotaExceededError
    /\ fst (initializeAssignment rnd s1) = Throw QuotaExceededError
    /\ assignedVariant (this s1)
       = Some (drawn_variant (rnd (random_next (env s))))
    /\ assignedVariant (this s2)
       = Some (drawn_variant (rnd (S (random_next (env s)))))
    /\ localStorage (env s2) = localStorage (env s).
Proof.
  intros rnd s t Hm Ht Hne Hacc Hfull Hst s1 s2.
  pose proof (resolve_unwritable rnd s t Hm Ht Hne Hacc Hfull Hst) as E1.
  subst s2 s1. rewrite E1. cbn [fst snd]. set (s1 := mkState _ _).
  assert (E2 := resolve_unwritable rnd s1 t).
  rewrite E2; subst s1; cbn [fst snd this env];
    try (destruct s as [[] []]; cbn in *; assumption).
  destruct s as [[] []]. repeat split.
Qed.

Lemma X10_witness :
  let alternating := fun n : nat => if Nat.even n then 1 # 4 else 3 # 4 in
  let s1 := snd (initializeAssignment alternating full_first_visit) in
  let s2 := snd (initializeAssignment alternating s1) in
  assignedVariant (this s1) = Some "A" /\ assignedVariant (this s2) = Some "B".
Proof.
  cbv zeta.
  destruct (X10_full_storage_redraws
              (fun n : nat => if Nat.even n then 1 # 4 else 3 # 4)
              full_first_visit "promo1")
    as (_ & _ & H3 & H4 & _);
    [reflexivity | reflexivity | discriminate | reflexivity | reflexivity
    | reflexivity |].
  split; [exact H3 | exact H4].
Defined.

(* ================================================================== *)
(** ** Further properties: keys, links, content *)
(* ================================================================== *)

Lemma list_of_append (a b : string) :
  list_ascii_of_string (a +:+ b)
  = list_ascii_of_string a ++ list_ascii_of_string b.
Proof.
  induction a as [|c a IH]; [reflexivity|].
  cbv [append]. fold append. cbn [list_ascii_of_string]. now rewrite IH.
Qed.

Lemma list_of_string_inj (a b : string) :
  list_ascii_of_string a = list_ascii_of_string b -> a = b.
Proof.
  intros H. rewrite <- (string_of_list_ascii_of_string a),
              <- (string_of_list_ascii_of_string b). now rewrite H.
Qed.

(** Two strings with the same suffix appended are equal only if they are
    the same string. *)
Lemma append_inj_r (x y p : string) : x +:+ p = y +:+ p -> x = y.
Proof.
  intros H. apply (f_equal list_ascii_of_string) in H.
  rewrite !list_of_append in H. apply List.app_inv_tail in H.
  now apply list_of_string_inj.
Qed.

Lemma view_click_suffix (x y : string) : x +:+ "_View" <> y +:+ "_Click".
Proof.
  intros H. apply (f_equal list_ascii_of_string) in H.
  rewrite !list_of_append in H. apply (f_equal (@List.rev ascii)) in H.
  rewrite !List.rev_app_distr in H. discriminate H.
Qed.

(** X11. Storage keys never collide.  For test ids [t], [t'] and the
    actions View and Click: an assignment key, a flag key and the visitor
    key are three different strings; two assignment keys are equal only
    for the same test; two flag keys are equal only for the same test and
    the same action. *)
Theorem X11_storage_keys_are_distinct :
  forall (t t' a a' : string),
    (a = "View" \/ a = "Click") -> (a' = "View" \/ a' = "Click") ->
    assignment_key (Some t) <> STORAGE_KEY_VISITOR
    /\ logged_key (Some t) a <> STORAGE_KEY_VISITOR
    /\ assignment_key (Some t) <> logged_key (Some t') a
    /\ (assignment_key (Some t) = assignment_key (Some t') -> t = t')
    /\ (logged_key (Some t) a = logged_key (Some t') a' -> t = t' /\ a = a').
Proof.
  intros t t' a a' Ha Ha'.
  split; [discriminate|]. split; [discriminate|]. split; [discriminate|]. split.
  - unfold assignment_key. cbn [str_of_slot]. apply append_inj_l.
  - unfold logged_key. cbn [str_of_slot]. intros H. apply append_inj_l in H.
    destruct Ha as [-> | ->], Ha' as [-> | ->].
    + split; [now apply append_inj_r in H | reflexivity].
    + now apply view_click_suffix in H.
    + symmetry in H. now apply view_click_suffix in H.
    + split; [now apply append_inj_r in H | reflexivity].
Qed.

Lemma X11_witness :
  assignment_key (Some "promo1_View") <> logged_key (Some "promo1") "View"
  /\ (logged_key (Some "a_View") "Click" = logged_key (Some "a") "View" ->
      "a_View" = "a" /\ "Click" = "View").
Proof.
  destruct (X11_storage_keys_are_distinct "promo1_View" "promo1" "View" "View")
    as (_ & _ & H3 & _); [now left | now left |].
  destruct (X11_storage_keys_are_distinct "a_View" "a" "Click" "View")
    as (_ & _ & _ & _ & H5); [now right | now left |].
  split; [exact H3 | exact H5].
Defined.

Lemma append_nonempty_r (a b : string) : b <> "" -> a +:+ b <> "".
Proof.
  intros Hb H. apply (f_equal String.length) in H.
  rewrite length_append in H. destruct b; [congruence|]. cbn in H. lia.
Qed.

(** X12. What [resolveUrl] can return.  The result is never the empty
    string.  It is the placeholder ["#"], or the input itself when that
    is an absolute link, or the site prefix followed by a slash and more;
    an absolute link is a fixed point, so resolving twice changes
    nothing for it. *)
Theorem X12_resolveUrl_shape :
  forall (basePath : string) (url : option string),
    resolveUrl basePath url <> ""
    /\ (resolveUrl basePath url = "#"
        \/ (exists u, url = Some u /\ matches_scheme u = true
                      /\ resolveUrl basePath url = u)
        \/ (exists rest, resolveUrl basePath url = basePath +:+ "/" +:+ rest))
    /\ (forall u, url = Some u -> matches_scheme u = true ->
          resolveUrl basePath (Some (resolveUrl basePath url)) = u).
Proof.
  intros basePath url.
  assert (Hbase : (if truthy_string basePath then basePath else "") = basePath)
    by (unfold truthy_string; destruct (String.eqb_spec basePath ""); cbn; congruence).
  assert (Habs : forall u, matches_scheme u = true -> u <> "")
    by (intros u Hu ->; discriminate Hu).
  assert (Hfix : forall u, matches_scheme u = true -> resolveUrl basePath (Some u) = u).
  { intros u Hu. unfold resolveUrl.
    now rewrite (truthy_str_nonempty u (Habs u Hu)), Hu. }
  destruct url as [u|]; [|repeat split; [discriminate | now left | discriminate]].
  destruct (String.eqb_spec u "") as [->|Hne].
  { repeat split; [discriminate | now left |].
    intros u [= <-] Hu. discriminate Hu. }
  destruct (matches_scheme u) eqn:Hu.
  - rewrite (Hfix u Hu). repeat split; [now apply Habs | |].
    + right; left. now exists u.
    + intros u' [= <-] _. now apply Hfix.
  - assert (E : exists rest, resolveUrl basePath (Some u) = basePath +:+ "/" +:+ rest).
    { unfold resolveUrl. rewrite (truthy_str_nonempty u Hne), Hu, Hbase. cbn [negb].
      destruct (startsWith u "/") eqn:Hs.
      - apply prefix_split in Hs as [rest ->]. now exists rest.
      - now exists u. }
    destruct E as [rest E]. rewrite E. repeat split.
    + apply append_nonempty_r. discriminate.
    + right; right. now exists rest.
    + intros u' [= <-] Hu'. congruence.
Qed.

Lemma X12_witness :
  resolveUrl "/site" (Some (resolveUrl "/site" (Some "mailto:a@b.c"))) = "mailto:a@b.c".
Proof.
  destruct (X12_resolveUrl_shape "/site" (Some "mailto:a@b.c")) as (_ & _ & H).
  apply H; reflexivity.
Defined.

(** X13. The display shows one variant only.  When [assignedVariant] is
    not ["A"], replacing all of variant A's content (image reference,
    position, title, description, button label and URL) leaves
    [currentData] unchanged; when it is ["A"], the same holds for
    replacing variant B's content.  A broken configuration of the
    variant that is not shown cannot affect the banner. *)
Theorem X13_display_ignores_the_other_variant :
  forall (basePath : string) (JSON_parse : string -> completion value)
         (c : Component) (img : value) (pos ttl desc label url : option string),
    (assignedVariant c <> Some "A" ->
     currentData basePath JSON_parse (with_variantA img pos ttl desc label url c)
     = currentData basePath JSON_parse c)
    /\ (assignedVariant c = Some "A" ->
        currentData basePath JSON_parse (with_variantB img pos ttl desc label url c)
        = currentData basePath JSON_parse c).
Proof.
  intros basePath JSON_parse c img pos ttl desc label url. split; intros HA.
  - unfold currentData, contentKeyA, contentKeyB.
    assert (E : match assignedVariant c with
                | Some v => String.eqb v "A"
                | None => false
                end = false).
    { destruct (assignedVariant c) as [v|]; [|reflexivity].
      apply String.eqb_neq. congruence. }
    destruct c. cbn in *. now rewrite E.
  - unfold currentData, contentKeyA, contentKeyB.
    destruct c. cbn in *. now rewrite HA.
Qed.

Lemma X13_witness :
  currentData "/site" Json.parse
    (with_variantA (VObj [("contentKey", Throw TypeError)]) None None None None None
                   (two_sided (Some "B")))
  = currentData "/site" Json.parse (two_sided (Some "B")).
Proof.
  apply (proj1 (X13_display_ignores_the_other_variant "/site" Json.parse
                  (two_sided (Some "B"))
                  (VObj [("contentKey", Throw TypeError)]) None None None None None)).
  cbn. discriminate.
Defined.



Section Media.

Variable basePath : string.
Variable JSON_parse : string -> completion value.

(** What [extractContentKey] returns is null or truthy: never
    [undefined], [false], zero or the empty string. *)
Lemma extractContentKey_null_or_truthy ref v :
  extractContentKey JSON_parse ref = Normal v -> v = VNull \/ truthy v = true.
Proof.
  unfold extractContentKey.
  destruct (truthy ref) eqn:Href; cbn [negb]; [| intros [= <-]; now left].
  assert (Hcatch : forall w,
             (if is_string ref then Normal ref else Normal VNull) = Normal w ->
             w = VNull \/ truthy w = true).
  { intros w. destruct (is_string ref); intros [= <-]; auto. }
  destruct (match ref with VStr s => JSON_parse s | _ => Normal ref end)
    as [obj|e]; [| apply Hcatch].
  destruct (get_property obj "contentKey") as [k|e]; [| apply Hcatch].
  destruct (truthy k) eqn:Hk; [intros [= <-]; now right |].
  destruct (get_property obj "id") as [i|e]; [| apply Hcatch].
  destruct (truthy i) eqn:Hi; intros [= <-]; auto.
Qed.

Lemma constructCmsUrl_truthy key :
  truthy key = true ->
  constructCmsUrl basePath key
  = Some (basePath +:+ delivery_route +:+ toString key).
Proof.
  intros Hk. unfold constructCmsUrl, truthy_string. rewrite Hk. cbn [negb].
  destruct (String.eqb_spec basePath "") as [->|]; reflexivity.
Qed.

End Media.



Example image_url_of_a_json_reference :
  exists key,
    extractContentKey Json.parse (VStr (Json.stringify_member "contentKey" "MC123"))
    = Normal key
    /\ constructCmsUrl "/site" key
       = Some "/site/sfsites/c/cms/delivery/media/MC123".
Proof. eexists. split; reflexivity. Qed.

Section FirstVisit.

Variable rnd : nat -> Q.

(** The two initialisations of [connectedCallback] in sequence. *)
Lemma connectedCallback_first_visit s t :
  forced (_previewMode (this s)) = false ->
  testId (this s) = Some t -> t <> "" ->
  storage_accessible (env s) = true ->
  storage_full (env s) = false ->
  truthy_str (localStorage (env s) !! STORAGE_KEY_VISITOR) = false ->
  truthy_str (localStorage (env s) !! (STORAGE_KEY_ASSIGNMENT +:+ t)) = false ->
  let n := random_next (env s) in
  let fresh := fill rnd uuid_template n in
  let variant := drawn_variant (rnd (31 + n)) in
  connectedCallback rnd s
  = (Normal tt,
     mkState (with_assignedVariant (Some variant)
                (with_visitorId (Some fresh) (this s)))
       (with_localStorage
          (<[STORAGE_KEY_ASSIGNMENT +:+ t := variant]>
             (<[STORAGE_KEY_VISITOR := fresh]> (localStorage (env s))))
          (with_random_next (32 + n) (env s)))).
Proof.
  intros Hm Ht Hne Hacc Hfull Hv Ha n fresh variant.
  unfold connectedCallback, bind.
  pose proof (visitor_absent rnd s Hacc Hfull Hv) as E1. cbv zeta in E1.
  rewrite E1. set (s1 := mkState _ _).
  pose proof (resolve_fresh rnd s1 t) as E2. cbv zeta in E2.
  rewrite E2; subst s1; destruct s as [[] [ls acc full k calls errs]];
    cbn in *; auto.
  rewrite lookup_insert_ne by discriminate. exact Ha.
Qed.

End FirstVisit.

(** X16. A first visit.  With a working storage that holds neither a
    visitor id nor an assignment for the configured test,
    [connectedCallback] in a non-forced mode consumes 32 draws: the first
    31 build the visitor id, the 32nd decides the variant.  It stores
    both under their keys, changes no other entry, sets [visitorId] and
    [assignedVariant] to the stored values and dispatches nothing. *)
Theorem X16_first_visit :
  forall (rnd : nat -> Q) (s : State) (t : string),
    forced (_previewMode (this s)) = false ->
    testId (this s) = Some t -> t <> "" ->
    storage_accessible (env s) = true ->
    storage_full (env s) = false ->
    truthy_str (localStorage (env s) !! STORAGE_KEY_VISITOR) = false ->
    truthy_str (localStorage (env s) !! (STORAGE_KEY_ASSIGNMENT +:+ t)) = false ->
    let n := random_next (env s) in
    let s' := snd (connectedCallback rnd s) in
    fst (connectedCallback rnd s) = Normal tt
    /\ visitorId (this s') = Some (fill rnd uuid_template n)
    /\ assignedVariant (this s') = Some (drawn_variant (rnd (31 + n)))
    /\ localStorage (env s') !! STORAGE_KEY_VISITOR = visitorId (this s')
    /\ localStorage (env s') !! (STORAGE_KEY_ASSIGNMENT +:+ t)
       = assignedVariant (this s')
    /\ (forall k, k <> STORAGE_KEY_VISITOR -> k <> STORAGE_KEY_ASSIGNMENT +:+ t ->
          localStorage (env s') !! k = localStorage (env s) !! k)
    /\ random_next (env s') = (32 + n)%nat
    /\ apex_calls (env s') = apex_calls (env s).
Proof.
  intros rnd s t Hm Ht Hne Hacc Hfull Hv Ha n s'.
  pose proof (connectedCallback_first_visit rnd s t Hm Ht Hne Hacc Hfull Hv Ha) as E.
  cbv zeta in E. subst s'. rewrite E. cbn [fst snd this env].
  destruct s as [[] [ls acc full k calls errs]]. cbn in *. subst n.
  repeat split.
  - rewrite lookup_insert_ne by discriminate. apply lookup_insert_eq.
  - apply lookup_insert_eq.
  - intros k0 Hk1 Hk2. now rewrite !lookup_insert_ne.
Qed.

Lemma X16_witness :
  let s' := snd (connectedCallback high_draws promo1_first_visit) in
  visitorId (this s') = Some "cccccccc-cccc-4ccc-8ccc-cccccccccccc"
  /\ assignedVariant (this s') = Some "B"
  /\ random_next (env s') = 32%nat.
Proof.
  destruct (X16_first_visit high_draws promo1_first_visit "promo1")
    as (_ & H2 & H3 & _ & _ & _ & H7 & _);
    [reflexivity | reflexivity | discriminate | reflexivity | reflexivity
    | reflexivity | reflexivity |].
  cbv zeta. split; [exact H2|]. split; [exact H3 | exact H7].
Defined.

(** X17. View and click are deduplicated separately.  With a working
    storage and reporting enabled, a render whose view flag is missing
    dispatches the view and sets the view flag, and a click whose click
    flag is missing dispatches the click and sets the click flag,
    whatever the other flag holds; the other flag is left as it is. *)
Theorem X17_actions_are_reported_separately :
  forall (rnd : nat -> Q) (s : State) (e : event) (a other : string),
    (e = Rendered /\ a = "View" /\ other = "Click")
    \/ (e = Click /\ a = "Click" /\ other = "View") ->
    storage_accessible (env s) = true ->
    storage_full (env s) = false ->
    reporting_enabled (this s) = true ->
    truthy_str (localStorage (env s) !! logged_key (testId (this s)) a) = false ->
    let s' := step rnd s e in
    dispatched s'
    = dispatched s
        ++ [mkPayload (testId (this s)) (assignedVariant (this s)) a
                      (visitorId (this s))]
    /\ localStorage (env s') !! logged_key (testId (this s)) a = Some "true"
    /\ localStorage (env s') !! logged_key (testId (this s)) other
       = localStorage (env s) !! logged_key (testId (this s)) other
    /\ this s' = this s.
Proof.
  intros rnd s e a other Hcase Hacc Hfull Hen Hflag s'.
  assert (E : s' = snd (tryLogMetric a s)).
  { subst s'. unfold step.
    destruct Hcase as [(-> & -> & _) | (-> & -> & _)]; cbn [handler].
    - unfold renderedCallback. now rewrite step_guarded, Hen.
    - unfold handleButtonClick. now rewrite step_guarded, Hen. }
  rewrite E, (tryLogMetric_sends s a Hacc Hfull Hflag). cbn [snd this env].
  assert (Hne : logged_key (testId (this s)) a <> logged_key (testId (this s)) other).
  { intros H. apply logged_key_inj in H.
    destruct Hcase as [(_ & -> & ->) | (_ & -> & ->)]; discriminate H. }
  destruct s as [c [ls acc full n calls errs]]. cbn in *.
  repeat split.
  - unfold dispatched. cbn. now rewrite List.map_app.
  - apply lookup_insert_eq.
  - now rewrite lookup_insert_ne.
Qed.

Lemma X17_witness :
  let s' := step low_draws promo1_viewed Click in
  dispatched s' = [mkPayload (Some "promo1") (Some "A") "Click" None]
  /\ localStorage (env s') !! logged_key (Some "promo1") "Click" = Some "true"
  /\ localStorage (env s') !! logged_key (Some "promo1") "View" = Some "true".
Proof.
  destruct (X17_actions_are_reported_separately low_draws promo1_viewed Click
              "Click" "View")
    as (H1 & H2 & H3 & _);
    [right; repeat split | reflexivity | reflexivity | reflexivity | reflexivity |].
  cbv zeta. split; [exact H1|]. split; [exact H2|].
  etransitivity; [exact H3 | reflexivity].
Defined.
